(** * FilterPage: the cascading region filter of [src/FilterPage.tsx]

    A shallow embedding of the selection logic of the page: the query
    parameters that hold the selection, the three change handlers and the
    reset handler, the lists and labels derived from the loaded data, the
    loader of the data and the timed loading flag.

    Conventions of the embedding.
    - A JavaScript string is a [string]; a character stands for the code
      unit of the same number (below 256).
    - [string | null] is [option string], [undefined] results are [None].
    - Identifiers of the data set are integers ([Z]); the values computed by
      [Number(...)] are [number]s, whose finite values carry the exact value
      of the literal they were read from (the rounding to binary64 is not
      part of the model, so the model is exact on every literal whose value
      is representable, in particular on the integers of the safe range).
    - The page is re-rendered from the current query parameters after every
      handler; a handler is a function from the page state to the state in
      which the navigation it asked for is committed. *)

From Stdlib Require Import List String Ascii Bool ZArith QArith Lia.
From Stdlib Require Import Numbers.DecimalString Numbers.DecimalZ Numbers.DecimalPos Numbers.DecimalN.
Import ListNotations.

Local Open Scope string_scope.
Local Open Scope Z_scope.

(** ** JavaScript values used by the page *)

Module JS.

(** The number values: [NaN], the two infinities and the finite values. *)
Inductive number : Type :=
| NaN
| Infinity (negative : bool)
| Finite (q : Q).

Definition of_int (z : Z) : number := Finite (inject_Z z).

(** [a === b] on numbers: [NaN] differs from everything, itself included. *)
Definition strict_eq (a b : number) : bool :=
  match a, b with
  | Finite p, Finite q => Qeq_bool p q
  | Infinity s, Infinity t => Bool.eqb s t
  | _, _ => false
  end.

(** Truthiness of a string ([if (val)]) and of [string | null]
    ([!selectedProvId]): the empty string and [null] are falsy. *)
Definition truthy (s : string) : bool :=
  match s with
  | EmptyString => false
  | String _ _ => true
  end.

Definition truthy_opt (v : option string) : bool :=
  match v with
  | None => false
  | Some s => truthy s
  end.

(** *** [Number(string)]: the StringNumericLiteral grammar *)

(** White space and line terminators among the code units below 256:
    TAB, LF, VT, FF, CR, SP and NBSP. *)
Definition is_white_space (c : ascii) : bool :=
  match nat_of_ascii c with
  | 9%nat | 10%nat | 11%nat | 12%nat | 13%nat | 32%nat | 160%nat => true
  | _ => false
  end.

Fixpoint trim_start (s : list ascii) : list ascii :=
  match s with
  | c :: r => if is_white_space c then trim_start r else s
  | [] => []
  end.

Definition trim (s : list ascii) : list ascii :=
  rev (trim_start (rev (trim_start s))).

(** Value of a digit in a radix (2, 8, 10 or 16), if it is one. *)
Definition digit_value (radix : Z) (c : ascii) : option Z :=
  let n := Z.of_nat (nat_of_ascii c) in
  let v :=
    if (48 <=? n) && (n <=? 57) then Some (n - 48)
    else if (97 <=? n) && (n <=? 102) then Some (n - 87)
    else if (65 <=? n) && (n <=? 70) then Some (n - 55)
    else None in
  match v with
  | Some d => if d <? radix then Some d else None
  | None => None
  end.

(** Reads the longest prefix of digits: the value read after [acc], the
    number of digits read and the rest of the input. *)
Fixpoint read_digits (radix : Z) (s : list ascii) (acc : Z) (count : nat)
  : Z * nat * list ascii :=
  match s with
  | c :: r =>
      match digit_value radix c with
      | Some d => read_digits radix r (acc * radix + d) (S count)
      | None => (acc, count, s)
      end
  | [] => (acc, count, [])
  end.

(** [m * 10^e] as an exact rational. *)
Definition scale10 (m e : Z) : Q :=
  if 0 <=? e then inject_Z (m * 10 ^ e)
  else Qmake m (Z.to_pos (10 ^ (- e))).

Definition read_sign (s : list ascii) : bool * list ascii :=
  match s with
  | "+"%char :: r => (false, r)
  | "-"%char :: r => (true, r)
  | _ => (false, s)
  end.

(** ExponentPart_opt at the end of the literal: [Some e] when the rest is
    empty ([e = 0]) or is a complete exponent part. *)
Definition read_exponent (s : list ascii) : option Z :=
  match s with
  | [] => Some 0
  | c :: r =>
      if (Ascii.eqb c "e" || Ascii.eqb c "E")%bool then
        let '(neg, r1) := read_sign r in
        match read_digits 10 r1 0 0 with
        | (_, O, _) => None
        | (e, S _, []) => Some (if neg then - e else e)
        | (_, S _, _ :: _) => None
        end
      else None
  end.

(** StrUnsignedDecimalLiteral other than [Infinity]. *)
Definition read_unsigned_decimal (s : list ascii) : option Q :=
  let '(int_part, n_int, r1) := read_digits 10 s 0 0 in
  let '(mantissa, n_all, r2) :=
    match r1 with
    | "."%char :: r => read_digits 10 r int_part n_int
    | _ => (int_part, n_int, r1)
    end in
  match n_all with
  | O => None
  | S _ =>
      match read_exponent r2 with
      | Some e => Some (scale10 mantissa (e - Z.of_nat (n_all - n_int)))
      | None => None
      end
  end.

Definition read_decimal (s : list ascii) : number :=
  let '(neg, r) := read_sign s in
  if list_eq_dec ascii_dec r (list_ascii_of_string "Infinity")
  then Infinity neg
  else
    match read_unsigned_decimal r with
    | Some q => Finite (if neg then Qopp q else q)
    | None => NaN
    end.

(** NonDecimalIntegerLiteral: the digits after [0x], [0o] or [0b]. *)
Definition read_radix (radix : Z) (s : list ascii) : number :=
  match read_digits radix s 0 0 with
  | (v, S _, []) => of_int v
  | _ => NaN
  end.

Definition StringToNumber (str : string) : number :=
  match trim (list_ascii_of_string str) with
  | [] => of_int 0
  | "0"%char :: p :: r =>
      if (Ascii.eqb p "x" || Ascii.eqb p "X")%bool then read_radix 16 r
      else if (Ascii.eqb p "o" || Ascii.eqb p "O")%bool then read_radix 8 r
      else if (Ascii.eqb p "b" || Ascii.eqb p "B")%bool then read_radix 2 r
      else read_decimal ("0"%char :: p :: r)
  | s => read_decimal s
  end.

(** [Number(v)] for [v : string | null]: [null] converts to [0]. *)
Definition Number (v : option string) : number :=
  match v with
  | None => of_int 0
  | Some s => StringToNumber s
  end.

(** [String(n)] for an integer [n]: its decimal digits, with a minus sign
    when negative.  This is how an [<option value={p.id}>] reaches the
    handlers as [e.target.value]. *)
Definition String_of_int (z : Z) : string :=
  NilZero.string_of_int (Z.to_int z).

End JS.

Import JS.

(** ** [URLSearchParams]

    The query parameters are an ordered list of name-value pairs in which a
    name may occur more than once (as in [?regency=1&regency=2]). *)

Module URLSearchParams.

Definition t : Type := list (string * string).

(** [get(name)]: the value of the first pair with that name, or [null]. *)
Fixpoint get (name : string) (params : t) : option string :=
  match params with
  | [] => None
  | (k, v) :: rest => if String.eqb k name then Some v else get name rest
  end.

(** [delete(name)]: removes every pair with that name. *)
Fixpoint delete (name : string) (params : t) : t :=
  match params with
  | [] => []
  | (k, v) :: rest =>
      if String.eqb k name then delete name rest
      else (k, v) :: delete name rest
  end.

(** [set(name, value)]: the first pair with that name takes the value and
    the others are removed; without such a pair, one is appended. *)
Fixpoint set (name value : string) (params : t) : t :=
  match params with
  | [] => [(name, value)]
  | (k, v) :: rest =>
      if String.eqb k name then (k, value) :: delete name rest
      else (k, v) :: set name value rest
  end.

(** [getAll(name)]: the values of all the pairs with that name, in order. *)
Definition getAll (name : string) (params : t) : list string :=
  map snd (filter (fun kv => String.eqb (fst kv) name) params).

End URLSearchParams.

(** ** The region data (lines 9-18) *)

Record Region : Type := { id : Z; name : string }.

Definition Province : Type := Region.

Record Regency : Type := { regency_region :> Region; province_id : Z }.

Record District : Type := { district_region :> Region; regency_id : Z }.

Record RegionData : Type := {
  provinces : list Province;
  regencies : list Regency;
  districts : list District
}.

Definition emptyData : RegionData :=
  {| provinces := []; regencies := []; districts := [] |}.

(** ** [regionLoader] (lines 20-29)

    A promise is modelled by its completion: it resolves to a value or
    rejects with an error; [await] of a rejected promise throws. *)

Module Loader.

Definition Error : Type := string.

Inductive Completion (A : Type) : Type :=
| Return (a : A)
| Throw (e : Error).
Arguments Return {A} a.
Arguments Throw {A} e.

Definition bind {A B} (c : Completion A) (k : A -> Completion B) : Completion B :=
  match c with
  | Return a => k a
  | Throw e => Throw e
  end.

Definition try_catch {A} (body : Completion A) (handler : Error -> Completion A)
  : Completion A :=
  match body with
  | Return a => Return a
  | Throw e => handler e
  end.

Notation "x <- c ;; k" := (bind c (fun x => k))
  (at level 61, c at next level, right associativity).

(** What [fetch] resolves to: the status flag and the outcome of [json()]. *)
Record Response : Type := { ok : bool; json : Completion RegionData }.

(** The loader, given the outcome of [fetch('/data/indonesia_regions.json')].
    The [catch] branch logs the error and returns the empty data. *)
Definition regionLoader (fetch : Completion Response) : Completion RegionData :=
  try_catch
    (response <- fetch ;;
     if negb (ok response) then Throw "Network response was not ok"
     else json response)
    (fun error => Return emptyData).

(** The three ways the load can fail: [fetch] rejects, the status is not a
    success, or the body does not parse. *)
Definition load_failed (fetch : Completion Response) : bool :=
  match fetch with
  | Throw _ => true
  | Return response =>
      negb (ok response) ||
      match json response with
      | Throw _ => true
      | Return _ => false
      end
  end.

End Loader.

(** ** [useTimedLoading] (lines 31-43)

    The state of one hook instance: the [loading] flag and the pending
    [setTimeout], as the milliseconds left before its callback runs.
    Time advances by [elapse]. *)

Module TimedLoading.

Record t : Type := { loading : bool; timeout : option nat }.

Definition initial : t := {| loading := false; timeout := None |}.

(** [start()] is [setLoading(true)].  When the flag is already [true] the
    state does not change, so the effect, whose dependencies are
    [loading] and [delay], is not run again and the pending timeout is kept.
    Otherwise the effect runs and sets a timeout of [delay]. *)
Definition start (delay : nat) (h : t) : t :=
  if loading h then h
  else {| loading := true; timeout := Some delay |}.

(** [ms] milliseconds pass.  A timeout that becomes due runs
    [setLoading(false)]; the effect is cleaned up and returns early. *)
Definition elapse (ms : nat) (h : t) : t :=
  match timeout h with
  | None => h
  | Some remaining =>
      if (remaining <=? ms)%nat then {| loading := false; timeout := None |}
      else {| loading := loading h; timeout := Some (remaining - ms)%nat |}
  end.

(** The cleanup of the effect when the component is discarded. *)
Definition unmount (h : t) : t :=
  {| loading := loading h; timeout := None |}.

Inductive event : Type :=
| Start
| Wait (ms : nat).

Definition step (delay : nat) (h : t) (e : event) : t :=
  match e with
  | Start => start delay h
  | Wait ms => elapse ms h
  end.

Definition run (delay : nat) (h : t) (trace : list event) : t :=
  fold_left (step delay) trace h.

(** Milliseconds waited in a trace. *)
Fixpoint waited (trace : list event) : nat :=
  match trace with
  | [] => 0
  | Start :: rest => waited rest
  | Wait ms :: rest => ms + waited rest
  end.

(** Milliseconds since the most recent [Start] of a trace, if it has one. *)
Fixpoint since_last_start (trace : list event) : option nat :=
  match trace with
  | [] => None
  | Start :: rest =>
      match since_last_start rest with
      | Some d => Some d
      | None => Some (waited rest)
      end
  | Wait _ :: rest => since_last_start rest
  end.

End TimedLoading.

(** ** [RegionFilter] (lines 45-109) *)

(** The state of the page: the query parameters of the address and the
    three loading hooks, each with the default delay. *)
Record Page : Type := {
  searchParams : URLSearchParams.t;
  loadingProvince : TimedLoading.t;
  loadingRegency : TimedLoading.t;
  loadingDistrict : TimedLoading.t
}.

Definition default_delay : nat := 500.

Definition initialPage (params : URLSearchParams.t) : Page :=
  {| searchParams := params;
     loadingProvince := TimedLoading.initial;
     loadingRegency := TimedLoading.initial;
     loadingDistrict := TimedLoading.initial |}.

(** [setSearchParams(next)] starts a navigation, which runs [regionLoader]
    again; the address, and with it the query of the page, changes when the
    navigation is committed.  The result is the page in that state; until
    then the page is rendered from the state before. *)
Definition setSearchParams (next : URLSearchParams.t) (page : Page) : Page :=
  {| searchParams := next;
     loadingProvince := loadingProvince page;
     loadingRegency := loadingRegency page;
     loadingDistrict := loadingDistrict page |}.

Definition startProvinceLoading (page : Page) : Page :=
  {| searchParams := searchParams page;
     loadingProvince := TimedLoading.start default_delay (loadingProvince page);
     loadingRegency := loadingRegency page;
     loadingDistrict := loadingDistrict page |}.

Definition startRegencyLoading (page : Page) : Page :=
  {| searchParams := searchParams page;
     loadingProvince := loadingProvince page;
     loadingRegency := TimedLoading.start default_delay (loadingRegency page);
     loadingDistrict := loadingDistrict page |}.

Definition startDistrictLoading (page : Page) : Page :=
  {| searchParams := searchParams page;
     loadingProvince := loadingProvince page;
     loadingRegency := loadingRegency page;
     loadingDistrict := TimedLoading.start default_delay (loadingDistrict page) |}.

(** Lines 53-55. *)
Definition selectedProvId (params : URLSearchParams.t) : option string :=
  URLSearchParams.get "province" params.
Definition selectedRegId (params : URLSearchParams.t) : option string :=
  URLSearchParams.get "regency" params.
Definition selectedDistId (params : URLSearchParams.t) : option string :=
  URLSearchParams.get "district" params.

(** Lines 57-65. *)
Definition availableRegencies (data : RegionData) (params : URLSearchParams.t)
  : list Regency :=
  if negb (truthy_opt (selectedProvId params)) then []
  else filter (fun r => strict_eq (of_int (province_id r))
                                  (Number (selectedProvId params)))
              (regencies data).

Definition availableDistricts (data : RegionData) (params : URLSearchParams.t)
  : list District :=
  if negb (truthy_opt (selectedRegId params)) then []
  else filter (fun d => strict_eq (of_int (regency_id d))
                                  (Number (selectedRegId params)))
              (districts data).

(** Lines 67-69: [find(...)?.name]. *)
Definition provName (data : RegionData) (params : URLSearchParams.t)
  : option string :=
  option_map name
    (find (fun p : Province => strict_eq (of_int (id p)) (Number (selectedProvId params)))
          (provinces data)).

Definition regName (data : RegionData) (params : URLSearchParams.t)
  : option string :=
  option_map (fun r : Regency => name r)
    (find (fun r : Regency => strict_eq (of_int (id r)) (Number (selectedRegId params)))
          (regencies data)).

Definition distName (data : RegionData) (params : URLSearchParams.t)
  : option string :=
  option_map (fun d : District => name d)
    (find (fun d : District => strict_eq (of_int (id d)) (Number (selectedDistId params)))
          (districts data)).

(** Lines 71-79.  [setSearchParams({ province: val })] replaces the whole
    query by the single pair. *)
Definition handleProvChange (val : string) (page : Page) : Page :=
  let page := startProvinceLoading page in
  if truthy val then setSearchParams [("province", val)] page
  else setSearchParams [] page.

(** Lines 81-93. *)
Definition handleRegChange (val : string) (page : Page) : Page :=
  let page := startRegencyLoading page in
  let newParams := searchParams page in
  let newParams :=
    if truthy val then
      URLSearchParams.delete "district" (URLSearchParams.set "regency" val newParams)
    else
      URLSearchParams.delete "district" (URLSearchParams.delete "regency" newParams) in
  setSearchParams newParams page.

(** Lines 95-105. *)
Definition handleDistChange (val : string) (page : Page) : Page :=
  let page := startDistrictLoading page in
  let newParams := searchParams page in
  let newParams :=
    if truthy val then URLSearchParams.set "district" val newParams
    else URLSearchParams.delete "district" newParams in
  setSearchParams newParams page.

(** Lines 107-109. *)
Definition handleReset (page : Page) : Page :=
  setSearchParams [] page.

(** Time passing on the page: each hook counts on its own. *)
Definition elapsePage (ms : nat) (page : Page) : Page :=
  {| searchParams := searchParams page;
     loadingProvince := TimedLoading.elapse ms (loadingProvince page);
     loadingRegency := TimedLoading.elapse ms (loadingRegency page);
     loadingDistrict := TimedLoading.elapse ms (loadingDistrict page) |}.

(** ** The selection state of the specification *)

(** The integer a number is, if it is one. *)
Definition integer_of (n : number) : option Z :=
  match n with
  | Finite q =>
      if Qnum q mod Zpos (Qden q) =? 0 then Some (Qnum q / Zpos (Qden q))
      else None
  | _ => None
  end.

(** The identifier a query value selects for the filters of lines 57-65:
    none when the value is missing or empty (the guard) or when
    [Number] of it is no integer, so that it equals no identifier. *)
Definition decodeId (v : option string) : option Z :=
  if truthy_opt v then integer_of (Number v) else None.

Record SelectionState : Type := {
  topId : option Z;
  midId : option Z;
  bottomId : option Z
}.

Definition decode (params : URLSearchParams.t) : SelectionState :=
  {| topId := decodeId (selectedProvId params);
     midId := decodeId (selectedRegId params);
     bottomId := decodeId (selectedDistId params) |}.

(** The value a select control passes to its handler for an identifier:
    the string of the chosen option, or the empty string of the placeholder
    option. *)
Definition option_value (i : option Z) : string :=
  match i with
  | Some z => String_of_int z
  | None => ""
  end.

(** Encoding a selection state: the three selections made in turn, from
    the first level down, on a page without query. *)
Definition encode (s : SelectionState) : URLSearchParams.t :=
  searchParams
    (handleDistChange (option_value (bottomId s))
       (handleRegChange (option_value (midId s))
          (handleProvChange (option_value (topId s)) (initialPage [])))).

(** Following the specification: [candidateMids(topId)] filters the
    mid-level collection where [parentId === topId], and is empty when
    [topId] is absent. *)
Definition candidateMids (data : RegionData) (top : option Z) : list Regency :=
  match top with
  | None => []
  | Some t => filter (fun r => province_id r =? t) (regencies data)
  end.

(** ** Predicates and data used in the statements *)

(** No level is selected in the query. *)
Definition no_selection (params : URLSearchParams.t) : Prop :=
  selectedProvId params = None /\
  selectedRegId params = None /\
  selectedDistId params = None.

(** No pair of the query holds the empty string. *)
Definition no_empty_value (params : URLSearchParams.t) : Prop :=
  forall k v, In (k, v) params -> v <> "".

(** The pair that encodes one level, when the level is defined. *)
Definition defined_pair (key : string) (i : option Z) : URLSearchParams.t :=
  match i with
  | Some z => [(key, String_of_int z)]
  | None => []
  end.

(** The data of the first scenario of the specification. *)
Definition scenarioData : RegionData :=
  {| provinces := [ {| id := 1; name := "A" |} ];
     regencies := [ {| regency_region := {| id := 10; name := "B" |};
                       province_id := 1 |} ];
     districts := [ {| district_region := {| id := 100; name := "C" |};
                       regency_id := 10 |} ] |}.

(** Following the specification: [candidateBottoms(midId)]. *)
Definition candidateBottoms (data : RegionData) (mid : option Z) : list District :=
  match mid with
  | None => []
  | Some m => filter (fun d => regency_id d =? m) (districts data)
  end.

(** A data set with a province whose identifier is [0]. *)
Definition dataWithIdZero : RegionData :=
  {| provinces := [ {| id := 0; name := "A" |} ];
     regencies := [];
     districts := [] |}.

(** A data set with a district whose identifier is [0]. *)
Definition dataWithDistrictZero : RegionData :=
  {| provinces := [ {| id := 1; name := "A" |} ];
     regencies := [ {| regency_region := {| id := 10; name := "B" |};
                       province_id := 1 |} ];
     districts := [ {| district_region := {| id := 0; name := "Z" |};
                       regency_id := 10 |} ] |}.

(** The page used in the examples below: a full selection in the query. *)
Definition page_1_10_100 : Page :=
  initialPage [("province", "1"); ("regency", "10"); ("district", "100")].

(** The value of a digit sequence read after [acc], as [read_digits] does. *)
Fixpoint uint_value (d : Decimal.uint) (acc : Z) : Z :=
  match d with
  | Decimal.Nil => acc
  | Decimal.D0 l => uint_value l (acc * 10 + 0)
  | Decimal.D1 l => uint_value l (acc * 10 + 1)
  | Decimal.D2 l => uint_value l (acc * 10 + 2)
  | Decimal.D3 l => uint_value l (acc * 10 + 3)
  | Decimal.D4 l => uint_value l (acc * 10 + 4)
  | Decimal.D5 l => uint_value l (acc * 10 + 5)
  | Decimal.D6 l => uint_value l (acc * 10 + 6)
  | Decimal.D7 l => uint_value l (acc * 10 + 7)
  | Decimal.D8 l => uint_value l (acc * 10 + 8)
  | Decimal.D9 l => uint_value l (acc * 10 + 9)
  end.

Definition digits (d : Decimal.uint) : list ascii :=
  list_ascii_of_string (NilEmpty.string_of_uint d).

(** ** The rendered page (lines 111-357)

    What [RegionFilter] returns, without its styling: the three select
    controls, the loading lines of the side bar, the breadcrumb, the
    headings of the main area and the prompt. *)

Module View.

(** A [<select>]: its controlled value, its [disabled] attribute and its
    options, each a pair of the [value] attribute and the text. *)
Record Select : Type := {
  value : string;
  disabled : bool;
  options : list (string * string)
}.

(** What a level shows: the loading marker or a text. *)
Inductive Content : Type :=
| Loading
| Text (s : string).

(** An item of the breadcrumb; [highlighted] stands for the class
    [text-blue-600], against [text-slate-400]. *)
Record Crumb : Type := { content : Content; highlighted : bool }.

(** A block of the main area: its caption and what it shows. *)
Record Heading : Type := { caption : string; body : Content }.

Record t : Type := {
  province : Select;
  spinnerProvince : bool;
  regency : Select;
  spinnerRegency : bool;
  district : Select;
  spinnerDistrict : bool;
  breadcrumb : list Crumb;
  headings : list Heading;
  prompt : bool
}.

End View.

(** [v || ''] for [v : string | null]. *)
Definition or_empty (v : option string) : string :=
  match v with
  | Some s => if truthy s then s else ""
  | None => ""
  end.

(** [{label}] in the markup: an undefined label renders as nothing. *)
Definition text_of (label : option string) : View.Content :=
  View.Text (match label with Some s => s | None => "" end).

(** [<option key={x.id} value={x.id}>{x.name}</option>]. *)
Definition option_of (x : Region) : string * string :=
  (String_of_int (id x), name x).

(** [(label || loading) && (...)] in the breadcrumb: the item is there
    when the label is a non-empty string or the level is loading; it shows
    the loading marker while loading, the label otherwise, and is
    highlighted unless [next && !loading]. *)
Definition crumb (label : option string) (loading : bool) (highlight : bool)
  : list View.Crumb :=
  if truthy_opt label || loading
  then [ {| View.content := if loading then View.Loading else text_of label;
            View.highlighted := highlight |} ]
  else [].

(** [(label || loading) && (...)] in the main area. *)
Definition heading (caption : string) (label : option string) (loading : bool)
  : list View.Heading :=
  if truthy_opt label || loading
  then [ {| View.caption := caption;
            View.body := if loading then View.Loading else text_of label |} ]
  else [].

Definition render (data : RegionData) (page : Page) : View.t :=
  let params := searchParams page in
  let loadingProv := TimedLoading.loading (loadingProvince page) in
  let loadingReg := TimedLoading.loading (loadingRegency page) in
  let loadingDist := TimedLoading.loading (loadingDistrict page) in
  {| View.province :=
       {| View.value := or_empty (selectedProvId params);
          View.disabled := false;
          View.options :=
            ("", "Pilih Provinsi") :: map option_of (provinces data) |};
     View.spinnerProvince := loadingProv;
     View.regency :=
       {| View.value := or_empty (selectedRegId params);
          View.disabled := negb (truthy_opt (selectedProvId params));
          View.options :=
            ("", "Pilih Kota/Kabupaten")
              :: map (fun r : Regency => option_of r)
                     (availableRegencies data params) |};
     View.spinnerRegency := loadingReg;
     View.district :=
       {| View.value := or_empty (selectedDistId params);
          View.disabled := negb (truthy_opt (selectedRegId params));
          View.options :=
            ("", "Pilih Kecamatan")
              :: map (fun d : District => option_of d)
                     (availableDistricts data params) |};
     View.spinnerDistrict := loadingDist;
     View.breadcrumb :=
       {| View.content := View.Text "Indonesia"; View.highlighted := false |}
         :: crumb (provName data params) loadingProv
              (negb (truthy_opt (regName data params) && negb loadingProv))
         ++ crumb (regName data params) loadingReg
              (negb (truthy_opt (distName data params) && negb loadingReg))
         ++ crumb (distName data params) loadingDist true;
     View.headings :=
       heading "Provinsi" (provName data params) loadingProv
         ++ heading "Kota / Kabupaten" (regName data params) loadingReg
         ++ heading "Kecamatan" (distName data params) loadingDist;
     View.prompt := negb (truthy_opt (provName data params)) |}.

(** ** What happens on the page *)

(** A change of one of the selects, a click on the reset button, or time
    passing. *)
Inductive Action : Type :=
| ChangeProvince (val : string)
| ChangeRegency (val : string)
| ChangeDistrict (val : string)
| ClickReset
| Elapse (ms : nat).

Definition perform (page : Page) (a : Action) : Page :=
  match a with
  | ChangeProvince val => handleProvChange val page
  | ChangeRegency val => handleRegChange val page
  | ChangeDistrict val => handleDistChange val page
  | ClickReset => handleReset page
  | Elapse ms => elapsePage ms page
  end.

(** A select that is not disabled lets the user choose the value of one of
    its options. *)
Definition chooses (s : View.Select) (val : string) : Prop :=
  View.disabled s = false /\ In val (map fst (View.options s)).

(** The actions the rendered page lets a user perform. *)
Definition offered (data : RegionData) (page : Page) (a : Action) : Prop :=
  match a with
  | ChangeProvince val => chooses (View.province (render data page)) val
  | ChangeRegency val => chooses (View.regency (render data page)) val
  | ChangeDistrict val => chooses (View.district (render data page)) val
  | ClickReset => True
  | Elapse _ => True
  end.

(** The pages a user reaches, with the same data throughout, from the
    address without query. *)
Inductive Reachable (data : RegionData) : Page -> Prop :=
| reach_initial : Reachable data (initialPage [])
| reach_perform (page : Page) (a : Action) :
    Reachable data page -> offered data page a ->
    Reachable data (perform page a).

(** The pair of a key in a query, when the key has a value. *)
Definition entry (key : string) (v : option string) : URLSearchParams.t :=
  match v with
  | Some s => [(key, s)]
  | None => []
  end.

(** A query in normal form: at most one pair for each of the three keys,
    in the order province, regency, district, none with an empty value, and
    nothing else. *)
Definition canonical (params : URLSearchParams.t) : Prop :=
  params = (entry "province" (selectedProvId params)
            ++ entry "regency" (selectedRegId params)
            ++ entry "district" (selectedDistId params))%list
  /\ no_empty_value params.

(** The flag of a hook is set exactly while its timeout is pending, and
    the timeout never has more than the delay left. *)
Definition timer_pending (delay : nat) (h : TimedLoading.t) : Prop :=
  match TimedLoading.timeout h with
  | Some remaining => TimedLoading.loading h = true /\ (remaining <= delay)%nat
  | None => TimedLoading.loading h = false
  end.

(** Every value the query holds is the value of an option that the select
    of its level offers for this query. *)
Definition selection_offered (data : RegionData) (params : URLSearchParams.t)
  : Prop :=
  (forall v, selectedProvId params = Some v ->
             exists p : Province, In p (provinces data) /\ v = String_of_int (id p)) /\
  (forall v, selectedRegId params = Some v ->
             exists r : Regency,
               In r (availableRegencies data params) /\ v = String_of_int (id r)) /\
  (forall v, selectedDistId params = Some v ->
             exists d : District,
               In d (availableDistricts data params) /\ v = String_of_int (id d)).

(** The three hooks of a page satisfy [timer_pending]. *)
Definition hooks_pending (page : Page) : Prop :=
  timer_pending default_delay (loadingProvince page) /\
  timer_pending default_delay (loadingRegency page) /\
  timer_pending default_delay (loadingDistrict page).

(** The first item of the breadcrumb. *)
Definition crumb_Indonesia : View.Crumb :=
  {| View.content := View.Text "Indonesia"; View.highlighted := false |}.

(** The first entity of a list with a given identifier. *)
Definition first_with_id {A : Type} (ident : A -> Z) (z : Z) (l : list A)
  : option A :=
  find (fun x => ident x =? z) l.

(** * Properties *)

(** ** Query parameters *)

Section SearchParamsFacts.

Import URLSearchParams.

Lemma get_delete_same (k : string) (p : t) : get k (delete k p) = None.
Proof.
  induction p as [|[k' v] p IH]; simpl; [reflexivity|].
  destruct (String.eqb k' k) eqn:E; simpl; [assumption|].
  rewrite E. assumption.
Qed.

Lemma get_delete_other (k k' : string) (p : t) :
  k <> k' -> get k (delete k' p) = get k p.
Proof.
  intros Hne. induction p as [|[k0 v] p IH]; simpl; [reflexivity|].
  destruct (String.eqb k0 k') eqn:E; simpl.
  - apply String.eqb_eq in E. subst k0.
    destruct (String.eqb k' k) eqn:E'; [|assumption].
    apply String.eqb_eq in E'. congruence.
  - rewrite IH. reflexivity.
Qed.

Lemma get_set_same (k v : string) (p : t) : get k (set k v p) = Some v.
Proof.
  induction p as [|[k' v'] p IH]; simpl.
  - rewrite String.eqb_refl. reflexivity.
  - destruct (String.eqb k' k) eqn:E; simpl; rewrite E; [reflexivity|assumption].
Qed.

Lemma get_set_other (k k' v : string) (p : t) :
  k <> k' -> get k (set k' v p) = get k p.
Proof.
  intros Hne. induction p as [|[k0 v0] p IH]; simpl.
  - destruct (String.eqb k' k) eqn:E; [|reflexivity].
    apply String.eqb_eq in E. congruence.
  - destruct (String.eqb k0 k') eqn:E; simpl.
    + apply String.eqb_eq in E. subst k0.
      destruct (String.eqb k' k) eqn:E'.
      * apply String.eqb_eq in E'. congruence.
      * apply get_delete_other. assumption.
    + rewrite IH. reflexivity.
Qed.

End SearchParamsFacts.

(** ** Numbers *)

Section NumberFacts.

(** [id === n] for an integer [id] holds exactly when [n] is that integer. *)
Lemma strict_eq_of_int (z : Z) (n : number) :
  strict_eq (of_int z) n
  = match integer_of n with
    | Some t => z =? t
    | None => false
    end.
Proof.
  destruct n as [| s | [a b]]; try reflexivity.
  unfold strict_eq, of_int, integer_of, Qeq_bool, inject_Z. cbn [Qnum Qden].
  rewrite Z.mul_1_r.
  destruct (a mod Z.pos b =? 0) eqn:Hmod.
  - apply Z.eqb_eq in Hmod.
    assert (Ha : a = Z.pos b * (a / Z.pos b)) by (apply Z.div_exact; lia).
    destruct (Z.eqb_spec (z * Z.pos b) a) as [E | E];
      destruct (Z.eqb_spec z (a / Z.pos b)) as [E' | E'];
      try reflexivity; exfalso.
    + apply E'. nia.
    + apply E. rewrite E'. lia.
  - apply Z.eqb_neq in Hmod.
    destruct (Z.eqb_spec (z * Z.pos b) a) as [E | E]; [|reflexivity].
    exfalso. apply Hmod. subst a. apply Z.mod_mul. lia.
Qed.

Lemma integer_of_of_int (z : Z) : integer_of (of_int z) = Some z.
Proof.
  unfold integer_of, of_int, inject_Z. cbn [Qnum Qden].
  rewrite Z.mod_1_r, Z.div_1_r. reflexivity.
Qed.

Lemma strict_eq_of_int_of_int (a b : Z) :
  strict_eq (of_int a) (of_int b) = (a =? b).
Proof. rewrite strict_eq_of_int, integer_of_of_int. reflexivity. Qed.

(** No identifier equals [NaN]. *)
Lemma strict_eq_NaN (n : number) : strict_eq n NaN = false.
Proof. destruct n; reflexivity. Qed.

(** *** Reading back the digits printed by [String_of_int] *)

Lemma uint_value_acc (d : Decimal.uint) (acc : positive) :
  uint_value d (Z.pos acc) = Z.pos (Pos.of_uint_acc d acc).
Proof.
  revert acc. induction d; intros acc; cbn [uint_value Pos.of_uint_acc];
    [reflexivity | ..];
    match goal with
    | |- uint_value _ ?a = Z.pos (Pos.of_uint_acc _ ?b) =>
        replace a with (Z.pos b) by lia
    end; apply IHd.
Qed.

Lemma uint_value_of_uint (d : Decimal.uint) :
  uint_value d 0 = Z.of_N (Pos.of_uint d).
Proof.
  induction d; cbn [uint_value Pos.of_uint]; try reflexivity;
    try (rewrite Z.mul_0_l, Z.add_0_l; apply (uint_value_acc d)).
  rewrite Z.mul_0_l, Z.add_0_l. assumption.
Qed.

Lemma uint_value_to_uint (p : positive) :
  uint_value (Pos.to_uint p) 0 = Z.pos p.
Proof.
  rewrite uint_value_of_uint, DecimalPos.Unsigned.of_to. reflexivity.
Qed.

Lemma read_digits_uint (d : Decimal.uint) (acc : Z) (count : nat) :
  read_digits 10 (digits d) acc count
  = (uint_value d acc, (List.length (digits d) + count)%nat, []).
Proof.
  revert acc count. unfold digits.
  induction d; intros acc count;
    cbn [NilEmpty.string_of_uint list_ascii_of_string read_digits uint_value
         List.length];
    [reflexivity | ..];
    (match goal with
     | |- context [digit_value 10 ?c] =>
         let v := eval vm_compute in (digit_value 10 c) in
         change (digit_value 10 c) with v
     end; cbv iota; rewrite IHd, Nat.add_succ_r; reflexivity).
Qed.

Lemma digits_no_white_space (d : Decimal.uint) :
  forallb (fun c => negb (is_white_space c)) (digits d) = true.
Proof.
  unfold digits. induction d; cbn [NilEmpty.string_of_uint list_ascii_of_string];
    [reflexivity | ..]; cbn [forallb]; rewrite IHd; reflexivity.
Qed.

Lemma digits_nonempty (d : Decimal.uint) : d <> Decimal.Nil -> digits d <> [].
Proof. destruct d; intros H; try discriminate. congruence. Qed.

Lemma trim_start_head (c : ascii) (l : list ascii) :
  is_white_space c = false -> trim_start (c :: l) = c :: l.
Proof. intros H. cbn [trim_start]. rewrite H. reflexivity. Qed.

(** Trimming leaves a string without white space as it is. *)
Lemma trim_no_white_space (l : list ascii) :
  forallb (fun c => negb (is_white_space c)) l = true -> trim l = l.
Proof.
  intros H. unfold trim.
  assert (Hs : forall l', forallb (fun c => negb (is_white_space c)) l' = true ->
                          trim_start l' = l').
  { intros [|c l'] H'; [reflexivity|].
    cbn [forallb] in H'. apply andb_prop in H' as [Hc _].
    apply trim_start_head. apply negb_true_iff. assumption. }
  rewrite (Hs l H). rewrite Hs.
  - apply rev_involutive.
  - rewrite forallb_forall in *. intros c Hc. apply H. apply in_rev. assumption.
Qed.

Lemma read_unsigned_decimal_digits (d : Decimal.uint) :
  d <> Decimal.Nil ->
  read_unsigned_decimal (digits d) = Some (inject_Z (uint_value d 0)).
Proof.
  intros Hd. unfold read_unsigned_decimal.
  rewrite read_digits_uint. cbv iota beta.
  destruct (List.length (digits d) + 0)%nat eqn:E.
  - apply digits_nonempty in Hd. destruct (digits d); [congruence | discriminate].
  - cbn [read_exponent]. rewrite Nat.sub_diag.
    unfold scale10. cbn. rewrite Z.mul_1_r. reflexivity.
Qed.

Lemma read_decimal_digits (d : Decimal.uint) :
  d <> Decimal.Nil ->
  read_decimal (digits d) = of_int (uint_value d 0).
Proof.
  intros Hd. unfold read_decimal.
  assert (Hsign : read_sign (digits d) = (false, digits d)).
  { destruct d; reflexivity. }
  rewrite Hsign.
  destruct (list_eq_dec ascii_dec (digits d) (list_ascii_of_string "Infinity"))
    as [e | _].
  - destruct d; discriminate e.
  - rewrite (read_unsigned_decimal_digits d Hd). reflexivity.
Qed.

Lemma read_decimal_minus_digits (d : Decimal.uint) :
  d <> Decimal.Nil ->
  read_decimal ("-"%char :: digits d) = of_int (- uint_value d 0).
Proof.
  intros Hd. unfold read_decimal. cbn [read_sign].
  destruct (list_eq_dec ascii_dec (digits d) (list_ascii_of_string "Infinity"))
    as [e | _].
  - destruct d; discriminate e.
  - rewrite (read_unsigned_decimal_digits d Hd). reflexivity.
Qed.

(** A literal of decimal digits is read as a decimal literal, whatever its
    first digits are. *)
Lemma StringToNumber_digits (d : Decimal.uint) :
  d <> Decimal.Nil ->
  StringToNumber (NilEmpty.string_of_uint d) = of_int (uint_value d 0).
Proof.
  intros Hd. unfold StringToNumber. fold (digits d).
  rewrite (trim_no_white_space _ (digits_no_white_space d)).
  rewrite <- (read_decimal_digits d Hd).
  destruct d as [| d | d | d | d | d | d | d | d | d | d];
    [congruence | | reflexivity ..].
  destruct d; reflexivity.
Qed.

Lemma StringToNumber_minus_digits (d : Decimal.uint) :
  d <> Decimal.Nil ->
  StringToNumber (String "-" (NilEmpty.string_of_uint d))
  = of_int (- uint_value d 0).
Proof.
  intros Hd. unfold StringToNumber.
  cbn [list_ascii_of_string]. fold (digits d).
  rewrite trim_no_white_space.
  - rewrite <- (read_decimal_minus_digits d Hd). reflexivity.
  - cbn [forallb]. rewrite digits_no_white_space. reflexivity.
Qed.

(** [Number(String(z)) === z] for every integer [z]. *)
Lemma Number_String_of_int (z : Z) :
  Number (Some (String_of_int z)) = of_int z.
Proof.
  unfold Number, String_of_int.
  destruct z as [| p | p]; [reflexivity | |];
    cbn [Z.to_int NilZero.string_of_int]; unfold NilZero.string_of_uint;
    pose proof (DecimalPos.Unsigned.to_uint_nonnil p) as Hp;
    destruct (Pos.to_uint p) eqn:E; try congruence; rewrite <- E in *.
  all: first [ rewrite (StringToNumber_digits _ Hp)
             | rewrite (StringToNumber_minus_digits _ Hp) ];
    rewrite uint_value_to_uint; reflexivity.
Qed.

(** The string of an integer is never empty. *)
Lemma truthy_String_of_int (z : Z) : truthy (String_of_int z) = true.
Proof.
  unfold String_of_int.
  destruct z as [| p | p]; [reflexivity | |];
    cbn [Z.to_int NilZero.string_of_int]; unfold NilZero.string_of_uint;
    pose proof (DecimalPos.Unsigned.to_uint_nonnil p) as Hp;
    destruct (Pos.to_uint p); try congruence; reflexivity.
Qed.

Lemma decodeId_String_of_int (z : Z) : decodeId (Some (String_of_int z)) = Some z.
Proof.
  unfold decodeId. cbn [truthy_opt].
  rewrite truthy_String_of_int, Number_String_of_int.
  apply integer_of_of_int.
Qed.

End NumberFacts.

(** The handlers touch the query parameters only through
    [setSearchParams]; these equations give the parameters they leave. *)

Lemma searchParams_handleProvChange (val : string) (page : Page) :
  searchParams (handleProvChange val page)
  = if truthy val then [("province", val)] else [].
Proof. unfold handleProvChange. destruct (truthy val); reflexivity. Qed.

Lemma searchParams_handleRegChange (val : string) (page : Page) :
  searchParams (handleRegChange val page)
  = if truthy val
    then URLSearchParams.delete "district"
           (URLSearchParams.set "regency" val (searchParams page))
    else URLSearchParams.delete "district"
           (URLSearchParams.delete "regency" (searchParams page)).
Proof. reflexivity. Qed.

Lemma searchParams_handleDistChange (val : string) (page : Page) :
  searchParams (handleDistChange val page)
  = if truthy val
    then URLSearchParams.set "district" val (searchParams page)
    else URLSearchParams.delete "district" (searchParams page).
Proof. reflexivity. Qed.

Lemma truthy_nonempty (val : string) : val <> "" -> truthy val = true.
Proof. destruct val; [congruence | reflexivity]. Qed.

(** ** Selecting a province *)

(** C1, as stated, fails: after a regency and a district were selected,
    choosing province 2 does not keep them in the query. *)
Lemma selectTop_keeps_lower_levels_fails :
  ~ (forall (page : Page) (val : string),
        val <> "" ->
        selectedRegId (searchParams page) <> None \/
        selectedDistId (searchParams page) <> None ->
        let next := searchParams (handleProvChange val page) in
        selectedProvId next = Some val /\
        selectedRegId next = selectedRegId (searchParams page) /\
        selectedDistId next = selectedDistId (searchParams page)).
Proof.
  intros H.
  specialize (H page_1_10_100 "2").
  destruct H as (_ & Hreg & _).
  - discriminate.
  - left. discriminate.
  - vm_compute in Hreg. discriminate.
Qed.

(** C1, amended: for every page, [handleProvChange] with a non-empty value
    leaves a query that holds this value as the province and holds neither
    a regency nor a district; it is the single pair [province = val]. *)
Theorem selectTop_nonempty_replaces_query (page : Page) (val : string) :
  val <> "" ->
  let next := searchParams (handleProvChange val page) in
  next = [("province", val)] /\
  selectedProvId next = Some val /\
  selectedRegId next = None /\
  selectedDistId next = None.
Proof.
  intros Hval next. subst next.
  rewrite searchParams_handleProvChange, (truthy_nonempty _ Hval).
  repeat split.
Qed.

Lemma selectTop_nonempty_replaces_query_witness :
  "2" <> "" /\
  let next := searchParams (handleProvChange "2" page_1_10_100) in
  next = [("province", "2")] /\
  selectedProvId next = Some "2" /\
  selectedRegId next = None /\
  selectedDistId next = None.
Proof.
  split; [discriminate|].
  apply (selectTop_nonempty_replaces_query page_1_10_100 "2").
  discriminate.
Defined.

(** ** Selecting a regency *)

Lemma handleRegChange_empty (page : Page) :
  let next := searchParams (handleRegChange "" page) in
  selectedRegId next = None /\
  selectedDistId next = None /\
  selectedProvId next = selectedProvId (searchParams page).
Proof.
  cbv zeta. rewrite searchParams_handleRegChange.
  unfold selectedRegId, selectedDistId, selectedProvId. cbn [truthy].
  repeat (rewrite get_delete_same
          || rewrite get_delete_other by discriminate).
  auto.
Qed.

Lemma handleRegChange_nonempty (page : Page) (val : string) :
  val <> "" ->
  let next := searchParams (handleRegChange val page) in
  selectedRegId next = Some val /\
  selectedDistId next = None /\
  selectedProvId next = selectedProvId (searchParams page).
Proof.
  intros Hval. cbv zeta. rewrite searchParams_handleRegChange.
  unfold selectedRegId, selectedDistId, selectedProvId.
  rewrite (truthy_nonempty _ Hval).
  repeat (rewrite get_delete_same
          || rewrite get_delete_other by discriminate).
  rewrite get_set_same.
  rewrite get_set_other by discriminate. auto.
Qed.

(** C2: for every page, [handleRegChange] with the empty value removes the
    regency and the district from the query and keeps the province; with a
    non-empty value it sets the regency to the value, removes the district
    and keeps the province. *)
Theorem selectMid_cascade (page : Page) (val : string) :
  let prev := searchParams page in
  let cleared := searchParams (handleRegChange "" page) in
  let next := searchParams (handleRegChange val page) in
  (selectedRegId cleared = None /\
   selectedDistId cleared = None /\
   selectedProvId cleared = selectedProvId prev) /\
  (val <> "" ->
   selectedRegId next = Some val /\
   selectedDistId next = None /\
   selectedProvId next = selectedProvId prev).
Proof.
  intros prev cleared next. split.
  - apply handleRegChange_empty.
  - intros Hval. apply handleRegChange_nonempty. assumption.
Qed.

Lemma selectMid_cascade_witness :
  let prev := searchParams page_1_10_100 in
  let next := searchParams (handleRegChange "11" page_1_10_100) in
  "11" <> "" /\
  selectedRegId next = Some "11" /\
  selectedDistId next = None /\
  selectedProvId next = selectedProvId prev.
Proof.
  split; [discriminate|].
  apply (proj2 (selectMid_cascade page_1_10_100 "11")).
  discriminate.
Defined.

(** C3, as stated, fails: with regency 10 and district 100 selected,
    changing the regency to 11 does not leave the district in the query. *)
Lemma selectMid_keeps_bottom_fails :
  ~ (forall (page : Page) (val : string),
        selectedDistId (searchParams page) <> None ->
        val <> "" ->
        selectedRegId (searchParams page) <> Some val ->
        selectedDistId (searchParams (handleRegChange val page)) <> None).
Proof.
  intros H.
  apply (H page_1_10_100 "11"); try discriminate.
  reflexivity.
Qed.

(** C3, amended: for every page with a district selected, changing the
    regency to a different non-empty value removes the district from the
    query, just as clearing the regency does. *)
Theorem selectMid_other_value_clears_bottom (page : Page) (val : string) :
  selectedDistId (searchParams page) <> None ->
  val <> "" ->
  selectedRegId (searchParams page) <> Some val ->
  let next := searchParams (handleRegChange val page) in
  selectedDistId next = None /\ selectedRegId next = Some val.
Proof.
  intros _ Hval _ next.
  destruct (handleRegChange_nonempty page val Hval) as (Hreg & Hdist & _).
  split; assumption.
Qed.

Lemma selectMid_other_value_clears_bottom_witness :
  selectedDistId (searchParams page_1_10_100) = Some "100" /\
  let next := searchParams (handleRegChange "11" page_1_10_100) in
  selectedDistId next = None /\ selectedRegId next = Some "11".
Proof.
  split; [reflexivity|].
  apply (selectMid_other_value_clears_bottom page_1_10_100 "11");
    discriminate.
Defined.

(** ** Clearing the selection *)

(** C6: for every page, both [handleProvChange] with the empty value and
    [handleReset] leave the empty query: no province, no regency and no
    district is selected any more. *)
Theorem selectTop_empty_and_reset_clear_all (page : Page) :
  searchParams (handleProvChange "" page) = [] /\
  no_selection (searchParams (handleProvChange "" page)) /\
  searchParams (handleReset page) = [] /\
  no_selection (searchParams (handleReset page)).
Proof. repeat split. Qed.

(** ** Lists and labels derived from the data *)

Section DerivedFacts.

Variable A : Type.
Variable ident : A -> Z.

(** The filter of lines 59 and 64, in terms of the decoded identifier. *)
Lemma filter_selected (v : option string) (l : list A) :
  (if negb (truthy_opt v) then []
   else filter (fun x => strict_eq (of_int (ident x)) (Number v)) l)
  = match decodeId v with
    | None => []
    | Some t => filter (fun x => ident x =? t) l
    end.
Proof.
  unfold decodeId. destruct (truthy_opt v); cbn [negb]; [|reflexivity].
  destruct (integer_of (Number v)) as [t|] eqn:E.
  - apply filter_ext. intros x. rewrite strict_eq_of_int, E. reflexivity.
  - induction l as [|x l IH]; [reflexivity|].
    cbn [filter]. rewrite strict_eq_of_int, E. assumption.
Qed.

(** The lookup of lines 67-69 finds the entity with the selected
    identifier when a single entity of the list has it. *)
Lemma find_selected_unique (n : number) (l : list A) (x : A) :
  In x l ->
  (forall y, In y l -> ident y = ident x -> y = x) ->
  integer_of n = Some (ident x) ->
  find (fun y => strict_eq (of_int (ident y)) n) l = Some x.
Proof.
  intros Hin Huniq Hn.
  induction l as [|y l IH]; [contradiction|].
  cbn [find]. rewrite strict_eq_of_int, Hn.
  destruct (Z.eqb_spec (ident y) (ident x)) as [E | E].
  - f_equal. apply Huniq; [left; reflexivity | assumption].
  - destruct Hin as [-> | Hin]; [congruence|].
    apply IH; [assumption|].
    intros z Hz. apply Huniq. right. assumption.
Qed.

(** The lookup finds nothing when no entity has the selected identifier. *)
Lemma find_selected_none (n : number) (l : list A) :
  (forall y, In y l -> integer_of n <> Some (ident y)) ->
  find (fun y => strict_eq (of_int (ident y)) n) l = None.
Proof.
  intros Hnone. induction l as [|y l IH]; [reflexivity|].
  cbn [find]. rewrite strict_eq_of_int.
  destruct (integer_of n) as [t|] eqn:E.
  - destruct (Z.eqb_spec (ident y) t) as [E' | E'].
    + exfalso. apply (Hnone y); [left; reflexivity | congruence].
    + apply IH. intros z Hz. apply Hnone. right. assumption.
  - apply IH. intros z Hz. apply Hnone. right. assumption.
Qed.

(** Two query values that decode to the same identifier select the same
    entity. *)
Lemma find_selected_decoded (v1 v2 : option string) (l : list A) (t : Z) :
  decodeId v1 = Some t -> decodeId v2 = Some t ->
  find (fun y => strict_eq (of_int (ident y)) (Number v1)) l
  = find (fun y => strict_eq (of_int (ident y)) (Number v2)) l.
Proof.
  unfold decodeId. intros H1 H2.
  destruct (truthy_opt v1); [|discriminate].
  destruct (truthy_opt v2); [|discriminate].
  induction l as [|y l IH]; [reflexivity|].
  cbn [find]. rewrite !strict_eq_of_int, H1, H2, IH. reflexivity.
Qed.

End DerivedFacts.

Lemma availableDistricts_candidateBottoms
      (data : RegionData) (params : URLSearchParams.t) :
  availableDistricts data params = candidateBottoms data (midId (decode params)).
Proof. apply (filter_selected District regency_id). Qed.

(** C4: for every data set and every query, [availableRegencies] is the
    list of the regencies whose [province_id] is the decoded province of
    the query, in the order of the data set, and it is empty when no
    province is decoded from the query. *)
Theorem availableRegencies_candidateMids
        (data : RegionData) (params : URLSearchParams.t) :
  availableRegencies data params = candidateMids data (topId (decode params)) /\
  (forall r, In r (availableRegencies data params) <->
             In r (regencies data) /\ topId (decode params) = Some (province_id r)) /\
  (topId (decode params) = None -> availableRegencies data params = []).
Proof.
  assert (E : availableRegencies data params
              = candidateMids data (topId (decode params)))
    by apply (filter_selected Regency province_id).
  split; [assumption|]. rewrite E. unfold candidateMids.
  split.
  - intros r. destruct (topId (decode params)) as [t|].
    + rewrite filter_In, Z.eqb_eq. split; intros [H1 H2]; split; congruence.
    + split; [contradiction | intros [_ H]; discriminate].
  - intros ->. reflexivity.
Qed.

Lemma availableRegencies_candidateMids_witness :
  topId (decode []) = None /\ availableRegencies scenarioData [] = [].
Proof.
  split; [reflexivity|].
  apply (proj2 (proj2 (availableRegencies_candidateMids scenarioData []))).
  reflexivity.
Defined.

(** The label of a level is the name of the single entity that has the
    selected identifier, and is undefined when no entity has it. *)
Lemma provName_unique (data : RegionData) (params : URLSearchParams.t) (p : Province) :
  In p (provinces data) ->
  (forall q, In q (provinces data) -> id q = id p -> q = p) ->
  integer_of (Number (selectedProvId params)) = Some (id p) ->
  provName data params = Some (name p).
Proof.
  intros Hin Huniq Hn. unfold provName.
  rewrite (find_selected_unique Province id _ _ p Hin Huniq Hn). reflexivity.
Qed.

Lemma provName_unmatched (data : RegionData) (params : URLSearchParams.t) :
  (forall q, In q (provinces data) ->
             integer_of (Number (selectedProvId params)) <> Some (id q)) ->
  provName data params = None.
Proof.
  intros H. unfold provName.
  rewrite (find_selected_none Province id _ _ H). reflexivity.
Qed.

(** C5 at the failing input: with no province in the query,
    [Number(null)] is [0], and the label is the name of the province whose
    identifier is [0] instead of being undefined. *)
Theorem provName_without_selection_finds_id_zero :
  selectedProvId [] = None /\
  provName dataWithIdZero [] = Some "A" /\
  availableRegencies dataWithIdZero [] = [].
Proof. repeat split. Qed.

(** What holds of the lower levels for every data set and every two
    queries: the district label is the same when the two queries hold the
    same district value, or decode to the same defined district identifier,
    and the list of districts is the same when they decode to the same
    regency, defined or not, whatever the higher levels hold; a query with a
    district alone gives the label of that district. *)
Theorem lower_levels_ignore_higher_selection
        (data : RegionData) (p1 p2 : URLSearchParams.t) :
  (selectedDistId p1 = selectedDistId p2 ->
   distName data p1 = distName data p2) /\
  (forall t, bottomId (decode p1) = Some t -> bottomId (decode p2) = Some t ->
             distName data p1 = distName data p2) /\
  (midId (decode p1) = midId (decode p2) ->
   availableDistricts data p1 = availableDistricts data p2) /\
  (forall d, In d (districts data) ->
             (forall d', In d' (districts data) -> id d' = id d -> d' = d) ->
             let alone := [("district", String_of_int (id d))] in
             selectedProvId alone = None /\
             selectedRegId alone = None /\
             distName data alone = Some (name d)).
Proof.
  split; [| split; [| split]].
  - unfold distName. intros ->. reflexivity.
  - intros t H1 H2. unfold distName.
    rewrite (find_selected_decoded District (fun d => id d) _ _ _ t H1 H2).
    reflexivity.
  - intros H. rewrite !availableDistricts_candidateBottoms, H. reflexivity.
  - intros d Hin Huniq alone. subst alone.
    split; [reflexivity|]. split; [reflexivity|].
    unfold distName.
    rewrite (find_selected_unique District (fun d => id d) _ _ d Hin Huniq);
      [reflexivity|].
    unfold selectedDistId. cbn [URLSearchParams.get String.eqb Ascii.eqb Bool.eqb].
    rewrite Number_String_of_int. apply integer_of_of_int.
Qed.

Lemma lower_levels_ignore_higher_selection_witness :
  let p1 := [("district", "100")] in
  let p2 := searchParams page_1_10_100 in
  selectedDistId p1 = selectedDistId p2 /\
  selectedProvId p1 <> selectedProvId p2 /\
  distName scenarioData p1 = distName scenarioData p2.
Proof.
  intros p1 p2. split; [reflexivity|]. split; [discriminate|].
  apply (proj1 (lower_levels_ignore_higher_selection scenarioData p1 p2)).
  reflexivity.
Defined.

(** C10 at the failing input: the address without query and the address
    [?district=abc] decode to the same selection state, with no district
    at all; on data with a district whose identifier is [0], the district
    label is the name of that district for the first, where [Number(null)]
    is [0], and undefined for the second, where [Number] gives [NaN]. *)
Theorem distName_differs_on_same_decoded_state :
  decode [] = decode [("district", "abc")] /\
  bottomId (decode []) = None /\
  distName dataWithDistrictZero [] = Some "Z" /\
  distName dataWithDistrictZero [("district", "abc")] = None /\
  availableDistricts dataWithDistrictZero []
  = availableDistricts dataWithDistrictZero [("district", "abc")].
Proof. repeat split. Qed.

(** ** Loading the data *)

Section LoaderFacts.

Import Loader.

Lemma regionLoader_returns (fetch : Completion Response) :
  exists data, regionLoader fetch = Return data.
Proof.
  unfold regionLoader.
  destruct fetch as [[[] [d | e]] | e]; cbn; eauto.
Qed.

(** C8: for every outcome of the fetch, [regionLoader] returns a value and
    throws nothing; when the fetch fails (rejection, status that is not a
    success, or a body that does not parse) the value is the empty data,
    for which every list derived from a query is empty and every label is
    undefined. *)
Theorem regionLoader_failure_gives_empty_data
        (fetch : Completion Response) (params : URLSearchParams.t) :
  (exists data, regionLoader fetch = Return data) /\
  (load_failed fetch = true -> regionLoader fetch = Return emptyData) /\
  availableRegencies emptyData params = [] /\
  availableDistricts emptyData params = [] /\
  provName emptyData params = None /\
  regName emptyData params = None /\
  distName emptyData params = None.
Proof.
  split; [apply regionLoader_returns|].
  split.
  - unfold regionLoader, load_failed.
    destruct fetch as [[[] [d | e]] | e]; cbn; intros H;
      try reflexivity; discriminate.
  - unfold availableRegencies, availableDistricts.
    destruct (negb (truthy_opt (selectedProvId params)));
      destruct (negb (truthy_opt (selectedRegId params)));
      repeat split.
Qed.

Lemma regionLoader_failure_gives_empty_data_witness :
  let fetch := Return {| ok := false; json := Return scenarioData |} in
  load_failed fetch = true /\ regionLoader fetch = Return emptyData.
Proof.
  intros fetch. split; [reflexivity|].
  apply (proj1 (proj2 (regionLoader_failure_gives_empty_data
                         fetch [("province", "1")]))).
  reflexivity.
Defined.

End LoaderFacts.

(** ** The query as the encoding of the selection *)

Section CodecFacts.

Import URLSearchParams.

Lemma in_delete (name : string) (p : t) (kv : string * string) :
  In kv (delete name p) -> In kv p.
Proof.
  induction p as [|[k v] p IH]; cbn [delete]; [tauto|].
  destruct (String.eqb k name); cbn [In]; tauto.
Qed.

Lemma in_set (name value : string) (p : t) (kv : string * string) :
  In kv (set name value p) -> In kv p \/ kv = (name, value).
Proof.
  induction p as [|[k v] p IH]; cbn [set In].
  - intros [<- | []]. right. reflexivity.
  - destruct (String.eqb k name) eqn:E; cbn [In].
    + apply String.eqb_eq in E. subst k.
      intros [<- | H]; [right; reflexivity|].
      left. right. apply (in_delete _ _ _ H).
    + tauto.
Qed.

Lemma no_empty_value_delete (name : string) (p : t) :
  no_empty_value p -> no_empty_value (delete name p).
Proof. intros H k v Hin. apply (H k v). apply (in_delete _ _ _ Hin). Qed.

Lemma no_empty_value_set (name value : string) (p : t) :
  truthy value = true -> no_empty_value p -> no_empty_value (set name value p).
Proof.
  intros Hv H k v Hin. apply in_set in Hin as [Hin | E].
  - apply (H k v Hin).
  - injection E as -> ->. destruct value; discriminate.
Qed.

(** Every handler keeps the query free of empty values, whatever value it
    is called with. *)
Lemma handlers_keep_no_empty_value (page : Page) (val : string) :
  no_empty_value (searchParams page) ->
  no_empty_value (searchParams (handleProvChange val page)) /\
  no_empty_value (searchParams (handleRegChange val page)) /\
  no_empty_value (searchParams (handleDistChange val page)) /\
  no_empty_value (searchParams (handleReset page)).
Proof.
  intros H.
  rewrite searchParams_handleProvChange, searchParams_handleRegChange,
    searchParams_handleDistChange.
  assert (Hnil : no_empty_value []) by (intros k v []).
  destruct (truthy val) eqn:Hv; (split; [| split; [| split]]); try assumption.
  - intros k v [E | []]. injection E as <- <-. destruct val; discriminate.
  - apply no_empty_value_delete, no_empty_value_set; assumption.
  - apply no_empty_value_set; assumption.
  - apply no_empty_value_delete, no_empty_value_delete; assumption.
  - apply no_empty_value_delete; assumption.
Qed.

Lemma encode_defined_pairs (s : SelectionState) :
  encode s = (defined_pair "province" (topId s)
              ++ defined_pair "regency" (midId s)
              ++ defined_pair "district" (bottomId s))%list.
Proof.
  unfold encode.
  rewrite searchParams_handleDistChange, searchParams_handleRegChange,
    searchParams_handleProvChange.
  destruct s as [[a|] [b|] [c|]]; cbn [topId midId bottomId option_value truthy];
    rewrite ?truthy_String_of_int; reflexivity.
Qed.


End CodecFacts.



(** ** The timed loading flag *)

Section TimedLoadingFacts.

Import TimedLoading.

Variable delay : nat.

Lemma start_active (h : t) : loading h = true -> start delay h = h.
Proof. intros H. unfold start. rewrite H. reflexivity. Qed.

(** While the flag is active, a trace that waits less than what is left
    of the timeout leaves the flag active and the timeout running, whatever
    starts it contains. *)
Lemma run_active (left_ms : nat) (trace : list event) :
  (waited trace < left_ms)%nat ->
  run delay {| loading := true; timeout := Some left_ms |} trace
  = {| loading := true; timeout := Some (left_ms - waited trace)%nat |}.
Proof.
  revert left_ms. unfold run.
  induction trace as [|[|ms] trace IH]; intros left_ms Hw; cbn [waited] in *.
  - cbn. rewrite Nat.sub_0_r. reflexivity.
  - cbn [fold_left step]. rewrite start_active by reflexivity.
    apply IH. assumption.
  - cbn [fold_left step]. unfold elapse. cbn [timeout loading].
    destruct (Nat.leb_spec left_ms ms) as [Hle | Hlt]; [lia|].
    rewrite IH by lia. do 2 f_equal. lia.
Qed.

End TimedLoadingFacts.

(** C9, as stated, fails: a second selection 400 ms after the first one
    does not restart the timer, and the flag is idle 100 ms later, long
    before the delay has elapsed since the second selection. *)
Lemma restart_on_retrigger_fails :
  ~ (forall (trace : list TimedLoading.event) (since : nat),
        TimedLoading.since_last_start trace = Some since ->
        (since < default_delay)%nat ->
        TimedLoading.loading
          (TimedLoading.run default_delay TimedLoading.initial trace) = true).
Proof.
  intros H.
  specialize (H [TimedLoading.Start; TimedLoading.Wait 400;
                 TimedLoading.Start; TimedLoading.Wait 100] 100%nat).
  cbn in H. discriminate H; [reflexivity | unfold default_delay; lia].
Qed.

(** C9, amended: for every delay, a start while the flag is active changes
    nothing, so the timer set by the start that activated the flag keeps
    running: after that start the flag stays active as long as less than the
    delay has been waited, and it is idle as soon as the delay has been
    waited, whatever starts happened in between. *)
Theorem start_while_active_keeps_timer
        (delay : nat) (trace : list TimedLoading.event) (ms : nat) :
  (forall h, TimedLoading.loading h = true -> TimedLoading.start delay h = h) /\
  ((TimedLoading.waited trace < delay)%nat ->
   TimedLoading.run delay TimedLoading.initial (TimedLoading.Start :: trace)
   = {| TimedLoading.loading := true;
        TimedLoading.timeout := Some (delay - TimedLoading.waited trace)%nat |}) /\
  ((TimedLoading.waited trace < delay)%nat ->
   (delay <= TimedLoading.waited trace + ms)%nat ->
   TimedLoading.run delay TimedLoading.initial
     (TimedLoading.Start :: trace ++ [TimedLoading.Wait ms])
   = {| TimedLoading.loading := false; TimedLoading.timeout := None |}).
Proof.
  split; [apply start_active|].
  assert (Hrun : (TimedLoading.waited trace < delay)%nat ->
     TimedLoading.run delay TimedLoading.initial (TimedLoading.Start :: trace)
     = {| TimedLoading.loading := true;
          TimedLoading.timeout := Some (delay - TimedLoading.waited trace)%nat |}).
  { intros Hw. apply (run_active delay delay trace Hw). }
  split; [assumption|].
  intros Hw Hms. specialize (Hrun Hw).
  unfold TimedLoading.run in *.
  rewrite app_comm_cons, fold_left_app, Hrun.
  cbn [fold_left TimedLoading.step]. unfold TimedLoading.elapse.
  cbn [TimedLoading.timeout].
  destruct (Nat.leb_spec (delay - TimedLoading.waited trace) ms); [reflexivity | lia].
Qed.

Lemma start_while_active_keeps_timer_witness :
  let trace := [TimedLoading.Wait 400; TimedLoading.Start] in
  (TimedLoading.waited trace < 500)%nat /\
  (500 <= TimedLoading.waited trace + 100)%nat /\
  TimedLoading.run 500 TimedLoading.initial
    (TimedLoading.Start :: trace ++ [TimedLoading.Wait 100])
  = {| TimedLoading.loading := false; TimedLoading.timeout := None |}.
Proof.
  intros trace. split; [cbn; lia|]. split; [cbn; lia|].
  apply (proj2 (proj2 (start_while_active_keeps_timer 500 trace 100)));
    cbn; lia.
Defined.

(** On the page, each handler starts the hook of its own level only. *)
Lemma handlers_start_their_hook (val : string) (page : Page) :
  loadingProvince (handleProvChange val page)
  = TimedLoading.start default_delay (loadingProvince page) /\
  loadingRegency (handleRegChange val page)
  = TimedLoading.start default_delay (loadingRegency page) /\
  loadingDistrict (handleDistChange val page)
  = TimedLoading.start default_delay (loadingDistrict page).
Proof.
  unfold handleProvChange. destruct (truthy val); repeat split.
Qed.

(** * Further properties of the page *)

(** ** More on the query parameters *)

Section SearchParamsAlgebra.

Import URLSearchParams.

Lemma delete_idem (k : string) (p : t) : delete k (delete k p) = delete k p.
Proof.
  induction p as [|[k0 v0] p IH]; cbn [delete]; [reflexivity|].
  destruct (String.eqb k0 k) eqn:E; [assumption|].
  cbn [delete]. rewrite E, IH. reflexivity.
Qed.

Lemma delete_comm (a b : string) (p : t) :
  delete a (delete b p) = delete b (delete a p).
Proof.
  induction p as [|[k0 v0] p IH]; cbn [delete]; [reflexivity|].
  destruct (String.eqb k0 b) eqn:Eb, (String.eqb k0 a) eqn:Ea;
    cbn [delete]; rewrite ?Ea, ?Eb, IH; reflexivity.
Qed.

Lemma delete_set_comm (a k v : string) (p : t) :
  a <> k -> delete a (set k v p) = set k v (delete a p).
Proof.
  intros Hne. induction p as [|[k0 v0] p IH]; cbn [set delete].
  - destruct (String.eqb k a) eqn:E; [|reflexivity].
    apply String.eqb_eq in E. congruence.
  - destruct (String.eqb k0 k) eqn:Ek.
    + apply String.eqb_eq in Ek. subst k0.
      assert (Ea : String.eqb k a = false)
        by (apply String.eqb_neq; congruence).
      cbn [delete set]. rewrite Ea. cbn [set]. rewrite String.eqb_refl.
      rewrite delete_comm. reflexivity.
    + destruct (String.eqb k0 a) eqn:Ea; cbn [delete set]; rewrite Ea.
      * assumption.
      * cbn [set]. rewrite Ek, IH. reflexivity.
Qed.

Lemma set_set (k v : string) (p : t) : set k v (set k v p) = set k v p.
Proof.
  induction p as [|[k0 v0] p IH]; cbn [set].
  - rewrite String.eqb_refl. reflexivity.
  - destruct (String.eqb k0 k) eqn:E; cbn [set]; rewrite E.
    + rewrite delete_idem. reflexivity.
    + rewrite IH. reflexivity.
Qed.

Lemma getAll_delete_other (k name : string) (p : t) :
  k <> name -> getAll k (delete name p) = getAll k p.
Proof.
  intros Hne. unfold getAll.
  induction p as [|[k0 v0] p IH]; cbn [delete filter map fst]; [reflexivity|].
  destruct (String.eqb k0 name) eqn:E.
  - apply String.eqb_eq in E. subst k0.
    assert (E' : String.eqb name k = false)
      by (apply String.eqb_neq; congruence).
    rewrite E'. assumption.
  - cbn [filter fst]. destruct (String.eqb k0 k); cbn [map]; rewrite IH;
      reflexivity.
Qed.

Lemma getAll_delete_same (k : string) (p : t) : getAll k (delete k p) = [].
Proof.
  unfold getAll.
  induction p as [|[k0 v0] p IH]; cbn [delete filter map fst]; [reflexivity|].
  destruct (String.eqb k0 k) eqn:E; [assumption|].
  cbn [filter fst]. rewrite E. assumption.
Qed.

Lemma getAll_set_other (k name value : string) (p : t) :
  k <> name -> getAll k (set name value p) = getAll k p.
Proof.
  intros Hne.
  assert (E' : String.eqb name k = false)
    by (apply String.eqb_neq; congruence).
  induction p as [|[k0 v0] p IH]; cbn [set].
  - unfold getAll. cbn [filter fst map]. rewrite E'. reflexivity.
  - destruct (String.eqb k0 name) eqn:E.
    + apply String.eqb_eq in E. subst k0.
      pose proof (getAll_delete_other k name p Hne) as Hd.
      unfold getAll in *. cbn [filter fst]. rewrite E'. assumption.
    + unfold getAll in *. cbn [filter fst].
      destruct (String.eqb k0 k); cbn [map]; rewrite IH; reflexivity.
Qed.

Lemma getAll_set_same (k v : string) (p : t) : getAll k (set k v p) = [v].
Proof.
  induction p as [|[k0 v0] p IH]; cbn [set].
  - unfold getAll. cbn [filter fst]. rewrite String.eqb_refl. reflexivity.
  - destruct (String.eqb k0 k) eqn:E.
    + pose proof (getAll_delete_same k p) as Hd.
      unfold getAll in *. cbn [filter fst]. rewrite E. cbn [map snd].
      rewrite Hd. reflexivity.
    + unfold getAll in *. cbn [filter fst]. rewrite E. assumption.
Qed.

End SearchParamsAlgebra.

Lemma start_idem (delay : nat) (h : TimedLoading.t) :
  TimedLoading.start delay (TimedLoading.start delay h)
  = TimedLoading.start delay h.
Proof.
  unfold TimedLoading.start.
  destruct (TimedLoading.loading h) eqn:E; [rewrite E|]; reflexivity.
Qed.

(** ** Selecting a district *)

Lemma handleDistChange_selected (page : Page) (val : string) :
  selectedProvId (searchParams (handleDistChange val page))
  = selectedProvId (searchParams page) /\
  selectedRegId (searchParams (handleDistChange val page))
  = selectedRegId (searchParams page) /\
  selectedDistId (searchParams (handleDistChange val page))
  = (if truthy val then Some val else None).
Proof.
  rewrite searchParams_handleDistChange.
  unfold selectedProvId, selectedRegId, selectedDistId.
  destruct (truthy val).
  - rewrite !get_set_other by discriminate. rewrite get_set_same. auto.
  - rewrite !get_delete_other by discriminate. rewrite get_delete_same. auto.
Qed.

(** For every page and every value, [handleDistChange] leaves the province
    and the regency of the query as they are, also when no regency is
    selected; with the empty value it removes the district, with another
    value the district is that value. *)
Theorem handleDistChange_frame (page : Page) (val : string) :
  let prev := searchParams page in
  let next := searchParams (handleDistChange val page) in
  selectedProvId next = selectedProvId prev /\
  selectedRegId next = selectedRegId prev /\
  selectedDistId next = (if truthy val then Some val else None) /\
  (selectedRegId prev = None -> truthy val = true ->
   selectedRegId next = None /\ selectedDistId next = Some val).
Proof.
  cbv zeta.
  destruct (handleDistChange_selected page val) as (Hp & Hr & Hd).
  split; [assumption|]. split; [assumption|]. split; [assumption|].
  intros Hnone Hv.
  split; [rewrite Hr; assumption | rewrite Hd, Hv; reflexivity].
Qed.

Lemma handleDistChange_frame_witness :
  let page := initialPage [("province", "1")] in
  let next := searchParams (handleDistChange "100" page) in
  selectedRegId next = None /\ selectedDistId next = Some "100".
Proof.
  intros page.
  apply (proj2 (proj2 (proj2 (handleDistChange_frame page "100"))));
    reflexivity.
Defined.

(** ** Repeating a selection *)

(** Every handler is idempotent on the whole page state, the query and the
    three hooks: making the same selection, or resetting, a second time
    right away changes nothing. *)
Theorem handlers_idempotent (page : Page) (val : string) :
  handleProvChange val (handleProvChange val page) = handleProvChange val page /\
  handleRegChange val (handleRegChange val page) = handleRegChange val page /\
  handleDistChange val (handleDistChange val page) = handleDistChange val page /\
  handleReset (handleReset page) = handleReset page.
Proof.
  destruct page as [params hp hr hd].
  unfold handleProvChange, handleRegChange, handleDistChange, handleReset,
    startProvinceLoading, startRegencyLoading, startDistrictLoading,
    setSearchParams.
  destruct (truthy val) eqn:Hv;
    cbn [searchParams loadingProvince loadingRegency loadingDistrict];
    rewrite ?start_idem; repeat split; f_equal.
  - rewrite <- (delete_set_comm "district" "regency") by discriminate.
    rewrite delete_idem, set_set. reflexivity.
  - apply set_set.
  - rewrite (delete_comm "regency" "district"), (delete_idem "district").
    rewrite (delete_idem "regency"). reflexivity.
  - apply delete_idem.
Qed.

(** ** Parameters the page does not know *)

(** For every page and every key other than [regency] and [district],
    [handleRegChange] keeps all the values of the key, in their order, and
    so does [handleDistChange] for every key other than [district];
    [handleProvChange] drops every pair but the province it sets. *)
Theorem other_parameters_kept_or_dropped (page : Page) (val key : string) :
  (key <> "regency" -> key <> "district" ->
   URLSearchParams.getAll key (searchParams (handleRegChange val page))
   = URLSearchParams.getAll key (searchParams page)) /\
  (key <> "district" ->
   URLSearchParams.getAll key (searchParams (handleDistChange val page))
   = URLSearchParams.getAll key (searchParams page)) /\
  (key <> "province" ->
   URLSearchParams.getAll key (searchParams (handleProvChange val page)) = []).
Proof.
  rewrite searchParams_handleRegChange, searchParams_handleDistChange,
    searchParams_handleProvChange.
  split; [| split].
  - intros Hr Hd. destruct (truthy val).
    + rewrite getAll_delete_other, getAll_set_other; auto.
    + rewrite !getAll_delete_other; auto.
  - intros Hd. destruct (truthy val).
    + apply getAll_set_other; assumption.
    + apply getAll_delete_other; assumption.
  - intros Hp. destruct (truthy val); [|reflexivity].
    unfold URLSearchParams.getAll. cbn [filter fst].
    assert (E : String.eqb "province" key = false)
      by (apply String.eqb_neq; congruence).
    rewrite E. reflexivity.
Qed.

Lemma other_parameters_kept_or_dropped_witness :
  let page := initialPage [("utm", "a"); ("regency", "10"); ("utm", "b")] in
  URLSearchParams.getAll "utm" (searchParams (handleRegChange "11" page))
  = ["a"; "b"] /\
  URLSearchParams.getAll "utm" (searchParams (handleDistChange "100" page))
  = ["a"; "b"] /\
  URLSearchParams.getAll "utm" (searchParams (handleProvChange "1" page)) = [].
Proof.
  intros page.
  pose proof (other_parameters_kept_or_dropped page "11" "utm") as (Hr & _ & _).
  pose proof (other_parameters_kept_or_dropped page "100" "utm") as (_ & Hd & _).
  pose proof (other_parameters_kept_or_dropped page "1" "utm") as (_ & _ & Hp).
  split; [| split].
  - rewrite Hr by discriminate. reflexivity.
  - rewrite Hd by discriminate. reflexivity.
  - apply Hp. discriminate.
Defined.

(** After [handleRegChange] the query holds at most one regency and no
    district, and after [handleDistChange] at most one district, whatever
    repeated pairs the address held before. *)
Theorem handlers_remove_repeated_pairs (page : Page) (val : string) :
  URLSearchParams.getAll "regency" (searchParams (handleRegChange val page))
  = (if truthy val then [val] else []) /\
  URLSearchParams.getAll "district" (searchParams (handleRegChange val page))
  = [] /\
  URLSearchParams.getAll "district" (searchParams (handleDistChange val page))
  = (if truthy val then [val] else []).
Proof.
  rewrite searchParams_handleRegChange, searchParams_handleDistChange.
  destruct (truthy val); repeat split;
    rewrite ?getAll_delete_same; try reflexivity.
  - rewrite getAll_delete_other by discriminate. apply getAll_set_same.
  - apply getAll_set_same.
  - rewrite getAll_delete_other by discriminate. apply getAll_delete_same.
Qed.

(** ** The normal form of the query *)

Lemma no_empty_value_perform (page : Page) (a : Action) :
  no_empty_value (searchParams page) ->
  no_empty_value (searchParams (perform page a)).
Proof.
  intros H. destruct a as [val | val | val | | ms]; cbn [perform];
    try apply (handlers_keep_no_empty_value page val H).
  - apply (handlers_keep_no_empty_value page "" H).
  - assumption.
Qed.

Lemma canonical_perform (page : Page) (a : Action) :
  canonical (searchParams page) -> canonical (searchParams (perform page a)).
Proof.
  intros [Hq Hne]. split; [| apply no_empty_value_perform; assumption].
  clear Hne.
  destruct a as [val | val | val | | ms]; cbn [perform];
    rewrite ?searchParams_handleProvChange, ?searchParams_handleRegChange,
      ?searchParams_handleDistChange;
    try (destruct (truthy val); reflexivity);
    try reflexivity; try assumption;
    remember (searchParams page) as q eqn:Heq; clear Heq;
    destruct (selectedProvId q) as [x|], (selectedRegId q) as [y|],
      (selectedDistId q) as [z|];
    cbn [entry app] in Hq; subst q; destruct (truthy val); reflexivity.
Qed.

(** Whatever the handlers are called with, and in whatever order, a page
    that started without query has a query in normal form: at most one
    pair for each of [province], [regency] and [district], in this order,
    none with an empty value, and no other pair. *)
Theorem query_stays_canonical (actions : list Action) :
  canonical (searchParams (fold_left perform actions (initialPage []))).
Proof.
  assert (H : forall page, canonical (searchParams page) ->
                           canonical (searchParams (fold_left perform actions page))).
  { induction actions as [|a actions IH]; intros page Hc; [assumption|].
    cbn [fold_left]. apply IH. apply canonical_perform. assumption. }
  apply H. split; [reflexivity | intros k v []].
Qed.

(** ** Selections made through the selects *)

Section ReachableFacts.

Variable data : RegionData.

Lemma chosen_option (A : Type) (proj : A -> Region) (placeholder : string * string)
      (l : list A) (val : string) :
  In val (map fst (placeholder :: map (fun x => option_of (proj x)) l)) ->
  val = fst placeholder \/ exists x, In x l /\ val = String_of_int (id (proj x)).
Proof.
  cbn [map In]. intros [H | H]; [left; congruence|]. right.
  rewrite map_map in H. apply in_map_iff in H as (x & Hx & Hin).
  exists x. split; [assumption | rewrite <- Hx; reflexivity].
Qed.

Lemma availableRegencies_same_province (q1 q2 : URLSearchParams.t) :
  selectedProvId q1 = selectedProvId q2 ->
  availableRegencies data q1 = availableRegencies data q2.
Proof. unfold availableRegencies. intros ->. reflexivity. Qed.

Lemma availableDistricts_same_regency (q1 q2 : URLSearchParams.t) :
  selectedRegId q1 = selectedRegId q2 ->
  availableDistricts data q1 = availableDistricts data q2.
Proof. unfold availableDistricts. intros ->. reflexivity. Qed.

Lemma truthy_false_empty (val : string) : truthy val = false -> val = "".
Proof. destruct val; [reflexivity | discriminate]. Qed.

Lemma selection_offered_perform (page : Page) (a : Action) :
  selection_offered data (searchParams page) ->
  offered data page a ->
  selection_offered data (searchParams (perform page a)).
Proof.
  intros (Hp & Hr & Hd) Hoff.
  destruct a as [val | val | val | | ms]; cbn [perform offered] in *.
  - (* province *)
    destruct Hoff as [_ Hin].
    apply (chosen_option Province (fun p => p)) in Hin.
    rewrite searchParams_handleProvChange.
    destruct (truthy val) eqn:Hv.
    + split; [| split]; intros v Hsel; try discriminate Hsel.
      injection Hsel as <-.
      destruct Hin as [E | (p & Hin & E)]; [subst val; discriminate|].
      exists p. split; assumption.
    + split; [| split]; intros v Hsel; discriminate Hsel.
  - (* regency *)
    destruct Hoff as [_ Hin].
    apply (chosen_option Regency (fun r => regency_region r)) in Hin.
    destruct (truthy val) eqn:Hv.
    + assert (Hval : val <> "") by (intros ->; discriminate).
      destruct (handleRegChange_nonempty page val Hval) as (Hreg & Hdist & Hprov).
      split; [| split]; intros v Hsel.
      * rewrite Hprov in Hsel. apply Hp. assumption.
      * rewrite Hreg in Hsel. injection Hsel as <-.
        destruct Hin as [E | (r & Hin & E)]; [contradiction|].
        exists r. split; [| assumption].
        rewrite (availableRegencies_same_province _ _ Hprov). assumption.
      * rewrite Hdist in Hsel. discriminate.
    + apply truthy_false_empty in Hv. subst val.
      destruct (handleRegChange_empty page) as (Hreg & Hdist & Hprov).
      split; [| split]; intros v Hsel.
      * rewrite Hprov in Hsel. apply Hp. assumption.
      * rewrite Hreg in Hsel. discriminate.
      * rewrite Hdist in Hsel. discriminate.
  - (* district *)
    destruct Hoff as [_ Hin].
    apply (chosen_option District (fun d => district_region d)) in Hin.
    destruct (handleDistChange_selected page val) as (Hprov & Hreg & Hdist).
    split; [| split]; intros v Hsel.
    + rewrite Hprov in Hsel. apply Hp. assumption.
    + rewrite Hreg in Hsel. destruct (Hr v Hsel) as (r & Hin' & E).
      exists r. split; [| assumption].
      rewrite (availableRegencies_same_province _ _ Hprov). assumption.
    + rewrite Hdist in Hsel. destruct (truthy val) eqn:Hv; [| discriminate].
      injection Hsel as <-.
      destruct Hin as [E | (d & Hin & E)]; [subst val; discriminate|].
      exists d. split; [| assumption].
      rewrite (availableDistricts_same_regency _ _ Hreg). assumption.
  - (* reset *)
    split; [| split]; intros v Hsel; discriminate Hsel.
  - (* time *)
    split; [| split]; assumption.
Qed.

Lemma reachable_selection_offered (page : Page) :
  Reachable data page -> selection_offered data (searchParams page).
Proof.
  induction 1 as [| page a _ IH Hoff].
  - split; [| split]; intros v Hsel; discriminate Hsel.
  - apply selection_offered_perform; assumption.
Qed.

Lemma available_regency_parent (q : URLSearchParams.t) (r : Regency) (z : Z) :
  In r (availableRegencies data q) ->
  selectedProvId q = Some (String_of_int z) ->
  In r (regencies data) /\ province_id r = z.
Proof.
  unfold availableRegencies. intros Hin Hsel. rewrite Hsel in Hin.
  cbn [truthy_opt] in Hin. rewrite truthy_String_of_int in Hin.
  cbn [negb] in Hin. apply filter_In in Hin as [Hin Heq].
  rewrite Number_String_of_int, strict_eq_of_int_of_int in Heq.
  apply Z.eqb_eq in Heq. split; assumption.
Qed.

Lemma available_district_parent (q : URLSearchParams.t) (d : District) (z : Z) :
  In d (availableDistricts data q) ->
  selectedRegId q = Some (String_of_int z) ->
  In d (districts data) /\ regency_id d = z.
Proof.
  unfold availableDistricts. intros Hin Hsel. rewrite Hsel in Hin.
  cbn [truthy_opt] in Hin. rewrite truthy_String_of_int in Hin.
  cbn [negb] in Hin. apply filter_In in Hin as [Hin Heq].
  rewrite Number_String_of_int, strict_eq_of_int_of_int in Heq.
  apply Z.eqb_eq in Heq. split; assumption.
Qed.

Lemma available_needs_province (q : URLSearchParams.t) (r : Regency) :
  In r (availableRegencies data q) -> exists v, selectedProvId q = Some v.
Proof.
  unfold availableRegencies.
  destruct (selectedProvId q) as [v|]; [eauto | contradiction].
Qed.

Lemma available_needs_regency (q : URLSearchParams.t) (d : District) :
  In d (availableDistricts data q) -> exists v, selectedRegId q = Some v.
Proof.
  unfold availableDistricts.
  destruct (selectedRegId q) as [v|]; [eauto | contradiction].
Qed.

End ReachableFacts.

(** On every page reached, with the same data, from the address without
    query by choosing options the selects offer, by the reset button and by
    waiting, the selection follows the hierarchy: a selected province is a
    province of the data, a selected regency is a regency of the selected
    province, and a selected district is a district of the selected
    regency. *)
Theorem reachable_selection_follows_hierarchy (data : RegionData) (page : Page) :
  Reachable data page ->
  let q := searchParams page in
  (forall v, selectedProvId q = Some v ->
     exists p : Province, In p (provinces data) /\ v = String_of_int (id p)) /\
  (forall v, selectedRegId q = Some v ->
     exists (p : Province) (r : Regency),
       In p (provinces data) /\ In r (regencies data) /\
       selectedProvId q = Some (String_of_int (id p)) /\
       v = String_of_int (id r) /\ province_id r = id p) /\
  (forall v, selectedDistId q = Some v ->
     exists (r : Regency) (d : District),
       In r (regencies data) /\ In d (districts data) /\
       selectedRegId q = Some (String_of_int (id r)) /\
       v = String_of_int (id d) /\ regency_id d = id r).
Proof.
  intros Hreach q. subst q.
  destruct (reachable_selection_offered data page Hreach) as (Hp & Hr & Hd).
  split; [assumption|]. split.
  - intros v Hsel. destruct (Hr v Hsel) as (r & Hin & E).
    destruct (available_needs_province data _ r Hin) as (pv & Hpv).
    destruct (Hp pv Hpv) as (p & Hpin & Ep). subst pv.
    destruct (available_regency_parent data _ r (id p) Hin Hpv) as (Hrin & Hpar).
    exists p, r. repeat split; assumption.
  - intros v Hsel. destruct (Hd v Hsel) as (d & Hin & E).
    destruct (available_needs_regency data _ d Hin) as (rv & Hrv).
    destruct (Hr rv Hrv) as (r & Hrin & Er). subst rv.
    destruct (available_district_parent data _ d (id r) Hin Hrv) as (Hdin & Hpar).
    destruct (available_needs_province data _ r Hrin) as (pv & Hpv).
    destruct (Hp pv Hpv) as (p & _ & Ep). subst pv.
    destruct (available_regency_parent data _ r (id p) Hrin Hpv) as (Hrin' & _).
    exists r, d. repeat split; assumption.
Qed.

Lemma reachable_selection_follows_hierarchy_witness :
  let page := perform (perform (initialPage []) (ChangeProvince "1"))
                      (ChangeRegency "10") in
  Reachable scenarioData page /\
  exists (p : Province) (r : Regency),
    In p (provinces scenarioData) /\ In r (regencies scenarioData) /\
    selectedProvId (searchParams page) = Some (String_of_int (id p)) /\
    "10" = String_of_int (id r) /\ province_id r = id p.
Proof.
  intros page.
  assert (Hreach : Reachable scenarioData page).
  { apply reach_perform; [apply reach_perform; [apply reach_initial|]|].
    - split; [reflexivity | right; left; reflexivity].
    - split; [reflexivity | right; left; reflexivity]. }
  split; [assumption|].
  apply (proj1 (proj2 (reachable_selection_follows_hierarchy
                         scenarioData page Hreach)) "10").
  reflexivity.
Defined.

(** ** The labels *)

Section LabelFacts.

Variable A : Type.
Variable ident : A -> Z.

(** The lookup of lines 67-69 returns the first entity whose identifier is
    the integer the number is, and nothing when the number is no integer. *)
Lemma find_by_number (n : number) (l : list A) :
  find (fun x => strict_eq (of_int (ident x)) n) l
  = match integer_of n with
    | Some z => first_with_id ident z l
    | None => None
    end.
Proof.
  unfold first_with_id.
  induction l as [|x l IH]; cbn [find].
  - destruct (integer_of n); reflexivity.
  - rewrite strict_eq_of_int, IH. destruct (integer_of n); reflexivity.
Qed.

Lemma find_by_String_of_int (z : Z) (l : list A) :
  find (fun x => strict_eq (of_int (ident x)) (Number (Some (String_of_int z)))) l
  = first_with_id ident z l.
Proof.
  rewrite find_by_number, Number_String_of_int, integer_of_of_int. reflexivity.
Qed.

Lemma Number_falsy (v : option string) :
  truthy_opt v = false -> Number v = of_int 0.
Proof.
  destruct v as [[|c s]|]; intros H; try discriminate; reflexivity.
Qed.

Lemma find_by_falsy (v : option string) (l : list A) :
  truthy_opt v = false ->
  find (fun x => strict_eq (of_int (ident x)) (Number v)) l
  = first_with_id ident 0 l.
Proof.
  intros H. rewrite find_by_number, (Number_falsy v H), integer_of_of_int.
  reflexivity.
Qed.

End LabelFacts.

(** For every data set, page and integer [z]: after the option with value
    [String(z)] was chosen in the select of a level, the label of the level
    is the name of the first entity of the level whose identifier is [z]
    (the entity of the option when identifiers are unique, another one with
    the same identifier when it comes earlier), and is undefined when the
    level has no such entity. *)
Theorem label_after_choice (data : RegionData) (page : Page) (z : Z) :
  provName data (searchParams (handleProvChange (String_of_int z) page))
  = option_map name (first_with_id id z (provinces data)) /\
  regName data (searchParams (handleRegChange (String_of_int z) page))
  = option_map (fun r : Regency => name r)
      (first_with_id (fun r : Regency => id r) z (regencies data)) /\
  distName data (searchParams (handleDistChange (String_of_int z) page))
  = option_map (fun d : District => name d)
      (first_with_id (fun d : District => id d) z (districts data)).
Proof.
  unfold provName, regName, distName.
  rewrite searchParams_handleProvChange, truthy_String_of_int.
  assert (Hz : String_of_int z <> "")
    by (intros E; pose proof (truthy_String_of_int z) as H;
        rewrite E in H; discriminate).
  destruct (handleRegChange_nonempty page _ Hz) as (Hreg & _ & _).
  destruct (handleDistChange_selected page (String_of_int z)) as (_ & _ & Hdist).
  rewrite truthy_String_of_int in Hdist.
  cbv zeta in Hreg. rewrite Hreg, Hdist.
  unfold selectedProvId. cbn [URLSearchParams.get String.eqb Ascii.eqb Bool.eqb].
  rewrite !find_by_String_of_int. repeat split.
Qed.

(** For every data set and query: when the query has no value, or the
    empty value, for a level, the label of the level is the name of the
    first entity of the level whose identifier is [0]; it is undefined
    exactly when the level has no entity with identifier [0], while the list
    of the level below is empty in any case. *)
Theorem label_without_value (data : RegionData) (params : URLSearchParams.t) :
  (truthy_opt (selectedProvId params) = false ->
   provName data params = option_map name (first_with_id id 0 (provinces data)) /\
   availableRegencies data params = []) /\
  (truthy_opt (selectedRegId params) = false ->
   regName data params
   = option_map (fun r : Regency => name r)
       (first_with_id (fun r : Regency => id r) 0 (regencies data)) /\
   availableDistricts data params = []) /\
  (truthy_opt (selectedDistId params) = false ->
   distName data params
   = option_map (fun d : District => name d)
       (first_with_id (fun d : District => id d) 0 (districts data))).
Proof.
  unfold provName, regName, distName, availableRegencies, availableDistricts.
  split; [| split]; intros H; rewrite ?H; cbn [negb];
    rewrite (find_by_falsy _ _ _ _ H); repeat split.
Qed.

Lemma label_without_value_witness :
  truthy_opt (selectedProvId []) = false /\
  provName dataWithIdZero []
  = option_map name (first_with_id id 0 (provinces dataWithIdZero)) /\
  availableRegencies dataWithIdZero [] = [].
Proof.
  split; [reflexivity|].
  apply (proj1 (label_without_value dataWithIdZero [])). reflexivity.
Defined.

(** ** The list of districts *)

(** For every data set and query, [availableDistricts] is the list of the
    districts whose [regency_id] is the decoded regency of the query, in
    the order of the data set; it is empty when no regency is decoded. *)
Theorem availableDistricts_of_decoded_regency
        (data : RegionData) (params : URLSearchParams.t) :
  availableDistricts data params = candidateBottoms data (midId (decode params)) /\
  (forall d, In d (availableDistricts data params) <->
             In d (districts data) /\ midId (decode params) = Some (regency_id d)) /\
  (midId (decode params) = None -> availableDistricts data params = []).
Proof.
  assert (E : availableDistricts data params
              = candidateBottoms data (midId (decode params)))
    by apply (filter_selected District regency_id).
  split; [assumption|]. rewrite E. unfold candidateBottoms.
  split.
  - intros d. destruct (midId (decode params)) as [t|].
    + rewrite filter_In, Z.eqb_eq. split; intros [H1 H2]; split; congruence.
    + split; [contradiction | intros [_ H]; discriminate].
  - intros ->. reflexivity.
Qed.

Lemma availableDistricts_of_decoded_regency_witness :
  midId (decode [("province", "1")]) = None /\
  availableDistricts scenarioData [("province", "1")] = [].
Proof.
  split; [reflexivity|].
  apply (proj2 (proj2 (availableDistricts_of_decoded_regency
                         scenarioData [("province", "1")]))).
  reflexivity.
Defined.

(** ** The select controls *)

Lemma or_empty_chosen (val : string) :
  or_empty (if truthy val then Some val else None) = val.
Proof. destruct val; reflexivity. Qed.

Lemma committed_value (data : RegionData) (page : Page) (val : string) :
  View.value (View.province (render data (handleProvChange val page))) = val /\
  View.value (View.regency (render data (handleRegChange val page))) = val /\
  View.value (View.district (render data (handleDistChange val page))) = val.
Proof.
  cbn [render View.province View.regency View.district View.value].
  destruct (handleDistChange_selected page val) as (_ & _ & Hd). rewrite Hd.
  split; [| split]; try apply or_empty_chosen.
  - rewrite searchParams_handleProvChange. destruct val; reflexivity.
  - destruct (truthy val) eqn:Hv.
    + assert (Hval : val <> "") by (intros ->; discriminate).
      destruct (handleRegChange_nonempty page val Hval) as (Hr & _ & _).
      cbv zeta in Hr. rewrite Hr. cbn [or_empty]. rewrite Hv. reflexivity.
    + apply truthy_false_empty in Hv. subst val.
      destruct (handleRegChange_empty page) as (Hr & _ & _).
      cbv zeta in Hr. rewrite Hr. reflexivity.
Qed.

(** The state a handler leaves is the state in which its hook was started,
    with the query replaced by the one it navigates to. *)
Lemma handler_commits_query (val : string) (page : Page) :
  handleProvChange val page
  = setSearchParams (searchParams (handleProvChange val page))
                    (startProvinceLoading page) /\
  handleRegChange val page
  = setSearchParams (searchParams (handleRegChange val page))
                    (startRegencyLoading page) /\
  handleDistChange val page
  = setSearchParams (searchParams (handleDistChange val page))
                    (startDistrictLoading page).
Proof.
  unfold handleProvChange. destruct (truthy val); repeat split.
Qed.

(** For every data set, page and value: in the state in which the
    navigation started by a change handler is committed, the [value]
    attribute of the select of its level is the value the handler was called
    with, the empty value of the placeholder included; in the state before,
    in which only the hook of the level was started and the query is still
    the old one, the [value] attributes of the three selects are the old
    ones and the loading line of the level is shown. *)
Theorem select_shows_chosen_value (data : RegionData) (page : Page) (val : string) :
  (View.value (View.province (render data (handleProvChange val page))) = val /\
   View.value (View.regency (render data (handleRegChange val page))) = val /\
   View.value (View.district (render data (handleDistChange val page))) = val) /\
  (forall pending,
      pending = startProvinceLoading page \/
      pending = startRegencyLoading page \/
      pending = startDistrictLoading page ->
      View.value (View.province (render data pending))
      = View.value (View.province (render data page)) /\
      View.value (View.regency (render data pending))
      = View.value (View.regency (render data page)) /\
      View.value (View.district (render data pending))
      = View.value (View.district (render data page))) /\
  View.spinnerProvince (render data (startProvinceLoading page)) = true /\
  View.spinnerRegency (render data (startRegencyLoading page)) = true /\
  View.spinnerDistrict (render data (startDistrictLoading page)) = true.
Proof.
  split; [apply committed_value|]. split.
  - intros pending [-> | [-> | ->]]; repeat split.
  - cbn [render View.spinnerProvince View.spinnerRegency View.spinnerDistrict
         startProvinceLoading startRegencyLoading startDistrictLoading
         loadingProvince loadingRegency loadingDistrict].
    repeat split;
      unfold TimedLoading.start;
      match goal with
      | |- TimedLoading.loading (if TimedLoading.loading ?h then _ else _) = _ =>
          destruct (TimedLoading.loading h) eqn:E; [exact E | reflexivity]
      end.
Qed.

Lemma select_shows_chosen_value_witness :
  let pending := startRegencyLoading page_1_10_100 in
  View.value (View.regency (render scenarioData pending)) = "10" /\
  View.value (View.regency
                (render scenarioData (handleRegChange "11" page_1_10_100)))
  = "11".
Proof.
  intros pending.
  pose proof (select_shows_chosen_value scenarioData page_1_10_100 "11")
    as ((_ & Hcommitted & _) & Hpending & _).
  split; [| exact Hcommitted].
  destruct (Hpending pending (or_intror (or_introl eq_refl))) as (_ & Hr & _).
  exact Hr.
Defined.

Lemma select_placeholder_only (data : RegionData) (page : Page) :
  (View.disabled (View.regency (render data page)) = true ->
   View.options (View.regency (render data page))
   = [("", "Pilih Kota/Kabupaten")]) /\
  (View.disabled (View.district (render data page)) = true ->
   View.options (View.district (render data page))
   = [("", "Pilih Kecamatan")]).
Proof.
  cbn [render View.regency View.district View.disabled View.options].
  unfold availableRegencies, availableDistricts.
  split; intros ->; reflexivity.
Qed.

Lemma selects_after_change (data : RegionData) (page : Page) (val : string) :
  let after_prov := render data (handleProvChange val page) in
  let after_reg := render data (handleRegChange val page) in
  View.disabled (View.regency after_prov) = negb (truthy val) /\
  View.value (View.regency after_prov) = "" /\
  View.disabled (View.district after_prov) = true /\
  View.value (View.district after_prov) = "" /\
  View.options (View.district after_prov) = [("", "Pilih Kecamatan")] /\
  View.disabled (View.district after_reg) = negb (truthy val) /\
  View.value (View.district after_reg) = "" /\
  View.disabled (View.regency after_reg)
  = View.disabled (View.regency (render data page)) /\
  View.options (View.regency after_reg)
  = View.options (View.regency (render data page)).
Proof.
  cbv zeta.
  cbn [render View.province View.regency View.district View.value
       View.disabled View.options].
  rewrite searchParams_handleProvChange.
  assert (Hreg : selectedRegId (searchParams (handleRegChange val page))
                 = if truthy val then Some val else None).
  { destruct (truthy val) eqn:Hv.
    - apply handleRegChange_nonempty. intros ->. discriminate.
    - apply truthy_false_empty in Hv. subst val. apply handleRegChange_empty. }
  assert (Hdist : selectedDistId (searchParams (handleRegChange val page)) = None).
  { destruct (truthy val) eqn:Hv.
    - apply handleRegChange_nonempty. intros ->. discriminate.
    - apply truthy_false_empty in Hv. subst val. apply handleRegChange_empty. }
  assert (Hprov : selectedProvId (searchParams (handleRegChange val page))
                  = selectedProvId (searchParams page)).
  { destruct (truthy val) eqn:Hv.
    - apply handleRegChange_nonempty. intros ->. discriminate.
    - apply truthy_false_empty in Hv. subst val. apply handleRegChange_empty. }
  rewrite Hreg, Hdist, Hprov.
  rewrite (availableRegencies_same_province data _ _ Hprov).
  destruct (truthy val) eqn:Hv; cbn [truthy_opt]; rewrite ?Hv; repeat split.
  unfold selectedProvId.
  cbn [URLSearchParams.get String.eqb Ascii.eqb Bool.eqb truthy_opt].
  rewrite Hv. reflexivity.
Qed.

(** For every data set, page and value: after [handleProvChange] the
    regency select is enabled exactly when the value is not empty, and the
    district select is disabled; after [handleRegChange] the district select
    is enabled exactly when the value is not empty; in both cases the
    selects below the changed level show their placeholder, and a disabled
    select offers nothing but its placeholder. *)
Theorem selects_below_are_reset (data : RegionData) (page : Page) (val : string) :
  let after_prov := render data (handleProvChange val page) in
  let after_reg := render data (handleRegChange val page) in
  View.disabled (View.regency after_prov) = negb (truthy val) /\
  View.value (View.regency after_prov) = "" /\
  View.disabled (View.district after_prov) = true /\
  View.value (View.district after_prov) = "" /\
  View.options (View.district after_prov) = [("", "Pilih Kecamatan")] /\
  View.disabled (View.district after_reg) = negb (truthy val) /\
  View.value (View.district after_reg) = "" /\
  View.disabled (View.regency after_reg)
  = View.disabled (View.regency (render data page)) /\
  View.options (View.regency after_reg)
  = View.options (View.regency (render data page)) /\
  (View.disabled (View.regency (render data page)) = true ->
   View.options (View.regency (render data page))
   = [("", "Pilih Kota/Kabupaten")]) /\
  (View.disabled (View.district (render data page)) = true ->
   View.options (View.district (render data page))
   = [("", "Pilih Kecamatan")]).
Proof.
  cbv zeta.
  pose proof (selects_after_change data page val) as H. cbv zeta in H.
  destruct H as (H1 & H2 & H3 & H4 & H5 & H6 & H7 & H8 & H9).
  pose proof (select_placeholder_only data page) as [Hph1 Hph2].
  repeat (split; [assumption|]). assumption.
Qed.

Lemma selects_below_are_reset_witness :
  let page := initialPage [] in
  View.disabled (View.regency (render scenarioData page)) = true /\
  View.options (View.regency (render scenarioData page))
  = [("", "Pilih Kota/Kabupaten")].
Proof.
  intros page. split; [reflexivity|].
  pose proof (selects_below_are_reset scenarioData page "1") as H.
  cbv zeta in H.
  destruct H as (_ & _ & _ & _ & _ & _ & _ & _ & _ & Hdisabled & _).
  apply Hdisabled. reflexivity.
Defined.

(** ** The loading hooks on the page *)

Section TimerFacts.

Import TimedLoading.

Variable delay : nat.

Lemma timer_pending_start (h : t) :
  timer_pending delay h -> timer_pending delay (start delay h).
Proof.
  intros H. unfold start.
  destruct (loading h) eqn:E; [exact H|].
  unfold timer_pending. cbn [timeout loading].
  split; [reflexivity | apply Nat.le_refl].
Qed.

Lemma timer_pending_elapse (ms : nat) (h : t) :
  timer_pending delay h -> timer_pending delay (elapse ms h).
Proof.
  unfold timer_pending, elapse. intros H.
  destruct (timeout h) as [r|] eqn:E.
  - destruct (Nat.leb_spec r ms); cbn [timeout loading]; [reflexivity|].
    destruct H as [Hl Hr]. split; [assumption | lia].
  - rewrite E. assumption.
Qed.

Lemma timer_pending_run (trace : list event) (h : t) :
  timer_pending delay h -> timer_pending delay (run delay h trace).
Proof.
  unfold run. revert h.
  induction trace as [|[|ms] trace IH]; intros h H; cbn [fold_left step];
    [assumption | apply IH, timer_pending_start | apply IH, timer_pending_elapse];
    assumption.
Qed.

Lemma timer_pending_idle_after (extra : nat) (h : t) :
  timer_pending delay h -> elapse (delay + extra) h = initial.
Proof.
  unfold timer_pending, elapse. intros H.
  destruct (timeout h) as [r|] eqn:E.
  - destruct H as [_ Hr].
    destruct (Nat.leb_spec r (delay + extra)); [reflexivity | lia].
  - destruct h as [l to]. cbn in *. subst. reflexivity.
Qed.

End TimerFacts.

(** For every delay and every sequence of starts and waits of a hook: the
    flag is set exactly while a timeout is pending, which has at most the
    delay left; so once the delay has been waited without a start the hook
    is back in its initial state, flag cleared and no timeout pending; and
    after the cleanup of the effect no waiting changes the hook any more. *)
Theorem hook_idle_after_delay
        (delay : nat) (trace : list TimedLoading.event) (extra ms : nat) :
  let h := TimedLoading.run delay TimedLoading.initial trace in
  timer_pending delay h /\
  (TimedLoading.loading h = true <-> TimedLoading.timeout h <> None) /\
  TimedLoading.run delay TimedLoading.initial
    (trace ++ [TimedLoading.Wait (delay + extra)]) = TimedLoading.initial /\
  TimedLoading.elapse ms (TimedLoading.unmount h) = TimedLoading.unmount h.
Proof.
  intros h.
  assert (Hp : timer_pending delay h).
  { apply timer_pending_run. reflexivity. }
  split; [assumption|]. split; [| split].
  - unfold timer_pending in Hp.
    destruct (TimedLoading.timeout h) as [r|].
    + destruct Hp as [Hl _]. split; [discriminate | intros _; assumption].
    + rewrite Hp. split; [discriminate | congruence].
  - unfold TimedLoading.run. rewrite fold_left_app.
    cbn [fold_left TimedLoading.step].
    apply timer_pending_idle_after. assumption.
  - reflexivity.
Qed.

Lemma hook_idle_after_delay_witness :
  let trace := [TimedLoading.Start; TimedLoading.Wait 400; TimedLoading.Start] in
  let h := TimedLoading.run 500 TimedLoading.initial trace in
  TimedLoading.loading h = true /\ TimedLoading.timeout h <> None.
Proof.
  intros trace h. split; [reflexivity|].
  apply (proj1 (proj2 (hook_idle_after_delay 500 trace 0 0))).
  reflexivity.
Defined.

Section PageTimerFacts.

Lemma hooks_pending_perform (page : Page) (a : Action) :
  hooks_pending page -> hooks_pending (perform page a).
Proof.
  intros (Hp & Hr & Hd).
  destruct a as [val | val | val | | ms]; cbn [perform];
    unfold handleProvChange, handleRegChange, handleDistChange, handleReset;
    try destruct (truthy val);
    repeat split;
    cbn [setSearchParams startProvinceLoading startRegencyLoading
         startDistrictLoading elapsePage
         loadingProvince loadingRegency loadingDistrict];
    auto using timer_pending_start, timer_pending_elapse.
Qed.

Lemma hooks_pending_actions (actions : list Action) (page : Page) :
  hooks_pending page -> hooks_pending (fold_left perform actions page).
Proof.
  revert page. induction actions as [|a actions IH]; intros page H;
    [assumption|].
  cbn [fold_left]. apply IH, hooks_pending_perform. assumption.
Qed.

Lemma hooks_idle_after_delay
      (params : URLSearchParams.t) (actions : list Action) (extra : nat) :
  let page := perform (fold_left perform actions (initialPage params))
                      (Elapse (default_delay + extra)) in
  loadingProvince page = TimedLoading.initial /\
  loadingRegency page = TimedLoading.initial /\
  loadingDistrict page = TimedLoading.initial.
Proof.
  cbv zeta.
  destruct (hooks_pending_actions actions (initialPage params)) as (Hp & Hr & Hd).
  { repeat split. }
  cbn [perform elapsePage loadingProvince loadingRegency loadingDistrict].
  repeat split; apply timer_pending_idle_after; assumption.
Qed.

End PageTimerFacts.

Lemma crumb_idle (label : option string) (highlight : bool) :
  crumb label false highlight
  = if truthy_opt label
    then [ {| View.content := text_of label; View.highlighted := highlight |} ]
    else [].
Proof. unfold crumb. rewrite orb_false_r. reflexivity. Qed.

Lemma heading_idle (caption : string) (label : option string) :
  heading caption label false
  = if truthy_opt label
    then [ {| View.caption := caption; View.body := text_of label |} ]
    else [].
Proof. unfold heading. rewrite orb_false_r. reflexivity. Qed.

(** For every data set, every address the page started with and every
    sequence of actions: once 500 ms have been waited without a selection,
    no loading line, loading crumb or loading block is shown, and the
    breadcrumb has, after "Indonesia", a crumb for exactly the levels whose
    label is a non-empty string, each showing its label. *)
Theorem no_indicator_after_delay
        (data : RegionData) (params : URLSearchParams.t)
        (actions : list Action) (extra : nat) :
  let page := perform (fold_left perform actions (initialPage params))
                      (Elapse (500 + extra)) in
  let view := render data page in
  View.spinnerProvince view = false /\
  View.spinnerRegency view = false /\
  View.spinnerDistrict view = false /\
  (forall c, In c (View.breadcrumb view) -> View.content c <> View.Loading) /\
  (forall b, In b (View.headings view) -> View.body b <> View.Loading) /\
  map View.content (View.breadcrumb view)
  = map View.Text
      ("Indonesia"
         :: filter truthy
              (map or_empty [provName data (searchParams page);
                             regName data (searchParams page);
                             distName data (searchParams page)])).
Proof.
  intros page view.
  assert (H : loadingProvince page = TimedLoading.initial /\
              loadingRegency page = TimedLoading.initial /\
              loadingDistrict page = TimedLoading.initial)
    by exact (hooks_idle_after_delay params actions extra).
  destruct H as (Hp & Hr & Hd).
  subst view. unfold render. rewrite Hp, Hr, Hd.
  cbn [TimedLoading.loading TimedLoading.initial View.spinnerProvince
       View.spinnerRegency View.spinnerDistrict View.breadcrumb View.headings].
  rewrite !crumb_idle, !heading_idle.
  split; [reflexivity|]. split; [reflexivity|]. split; [reflexivity|].
  destruct (provName data (searchParams page)) as [[|c1 s1]|];
    destruct (regName data (searchParams page)) as [[|c2 s2]|];
    destruct (distName data (searchParams page)) as [[|c3 s3]|];
    cbn [truthy_opt truthy app map filter or_empty text_of In];
    (split; [| split]; [| | reflexivity]);
    intros x Hx;
    repeat (destruct Hx as [<- | Hx]; [discriminate|]); contradiction.
Qed.

Lemma no_indicator_after_delay_witness :
  let page := perform (fold_left perform [ChangeRegency "10"]
                                 (initialPage [("province", "1")]))
                      (Elapse (500 + 0)) in
  let c := {| View.content := View.Text "B"; View.highlighted := true |} in
  In c (View.breadcrumb (render scenarioData page)) /\
  View.content c <> View.Loading.
Proof.
  intros page c.
  assert (Hin : In c (View.breadcrumb (render scenarioData page)))
    by (right; right; left; reflexivity).
  split; [assumption|].
  pose proof (no_indicator_after_delay scenarioData [("province", "1")]
                [ChangeRegency "10"] 0) as H.
  cbv zeta in H. destruct H as (_ & _ & _ & Hc & _).
  apply Hc. exact Hin.
Defined.

(** ** Indicators started by the handlers *)

Lemma loading_start (delay : nat) (h : TimedLoading.t) :
  TimedLoading.loading (TimedLoading.start delay h) = true.
Proof.
  unfold TimedLoading.start.
  destruct (TimedLoading.loading h) eqn:E; [assumption | reflexivity].
Qed.

Lemma heading_loading (caption : string) (label : option string) :
  heading caption label true
  = [ {| View.caption := caption; View.body := View.Loading |} ].
Proof. unfold heading. rewrite orb_true_r. reflexivity. Qed.

(** For every data set, page and value: a change handler starts the hook
    of its own level and leaves the two other hooks as they are, also when
    it clears the levels below; right after it, the loading line of the
    level and the loading block of the level are shown, whatever the value
    was; [handleReset] touches no hook. *)
Theorem change_shows_indicator_of_its_level
        (data : RegionData) (page : Page) (val : string) :
  let after_prov := handleProvChange val page in
  let after_reg := handleRegChange val page in
  let after_dist := handleDistChange val page in
  (View.spinnerProvince (render data after_prov) = true /\
   In {| View.caption := "Provinsi"; View.body := View.Loading |}
      (View.headings (render data after_prov)) /\
   loadingRegency after_prov = loadingRegency page /\
   loadingDistrict after_prov = loadingDistrict page) /\
  (View.spinnerRegency (render data after_reg) = true /\
   In {| View.caption := "Kota / Kabupaten"; View.body := View.Loading |}
      (View.headings (render data after_reg)) /\
   loadingProvince after_reg = loadingProvince page /\
   loadingDistrict after_reg = loadingDistrict page) /\
  (View.spinnerDistrict (render data after_dist) = true /\
   In {| View.caption := "Kecamatan"; View.body := View.Loading |}
      (View.headings (render data after_dist)) /\
   loadingProvince after_dist = loadingProvince page /\
   loadingRegency after_dist = loadingRegency page) /\
  (loadingProvince (handleReset page) = loadingProvince page /\
   loadingRegency (handleReset page) = loadingRegency page /\
   loadingDistrict (handleReset page) = loadingDistrict page).
Proof.
  cbv zeta.
  assert (Hp : loadingProvince (handleProvChange val page)
               = TimedLoading.start default_delay (loadingProvince page))
    by (unfold handleProvChange; destruct (truthy val); reflexivity).
  assert (Hpr : loadingRegency (handleProvChange val page) = loadingRegency page)
    by (unfold handleProvChange; destruct (truthy val); reflexivity).
  assert (Hpd : loadingDistrict (handleProvChange val page) = loadingDistrict page)
    by (unfold handleProvChange; destruct (truthy val); reflexivity).
  cbn [render View.spinnerProvince View.spinnerRegency View.spinnerDistrict
       View.headings].
  rewrite Hp.
  change (loadingRegency (handleRegChange val page))
    with (TimedLoading.start default_delay (loadingRegency page)).
  change (loadingDistrict (handleDistChange val page))
    with (TimedLoading.start default_delay (loadingDistrict page)).
  rewrite !loading_start, !heading_loading.
  split; [| split; [| split]].
  - split; [reflexivity|]. split; [left; reflexivity|]. split; assumption.
  - split; [reflexivity|]. split; [| split; reflexivity].
    apply in_or_app. right. left. reflexivity.
  - split; [reflexivity|]. split; [| split; reflexivity].
    apply in_or_app. right. apply in_or_app. right. left. reflexivity.
  - repeat split.
Qed.

(** ** The breadcrumb *)

(** For every data set and page, in every state of the hooks: when the
    breadcrumb has an item after "Indonesia", its last item is
    highlighted. *)
Theorem last_crumb_highlighted (data : RegionData) (page : Page) :
  let items := View.breadcrumb (render data page) in
  items = [crumb_Indonesia] \/
  View.highlighted (last items crumb_Indonesia) = true.
Proof.
  cbv zeta. cbn [render View.breadcrumb]. fold crumb_Indonesia.
  destruct (TimedLoading.loading (loadingProvince page)),
    (TimedLoading.loading (loadingRegency page)),
    (TimedLoading.loading (loadingDistrict page));
    destruct (provName data (searchParams page)) as [[|c1 s1]|];
    destruct (regName data (searchParams page)) as [[|c2 s2]|];
    destruct (distName data (searchParams page)) as [[|c3 s3]|];
    cbn; auto.
Qed.

(** ** The loader and the page *)

Section LoaderPageFacts.

Import Loader.

Lemma regionLoader_failed (fetch : Completion Response) :
  load_failed fetch = true -> regionLoader fetch = Return emptyData.
Proof.
  unfold regionLoader, load_failed.
  destruct fetch as [[[] [d | e]] | e]; cbn; intros H;
    try reflexivity; discriminate.
Qed.

Lemma regionLoader_succeeded (fetch : Completion Response) :
  load_failed fetch = false ->
  exists data, fetch = Return {| ok := true; json := Return data |} /\
               regionLoader fetch = Return data.
Proof.
  unfold regionLoader, load_failed.
  destruct fetch as [[[] [d | e]] | e]; cbn; intros H; try discriminate.
  exists d. split; reflexivity.
Qed.

End LoaderPageFacts.

(** For every outcome of the fetch: when the status is a success and the
    body parses, [regionLoader] returns the parsed body as it is; and a
    result other than the empty data can only be the parsed body of a
    fetch with a success status. *)
Theorem regionLoader_passes_body_through
        (fetch : Loader.Completion Loader.Response) (data : RegionData) :
  Loader.regionLoader
    (Loader.Return {| Loader.ok := true; Loader.json := Loader.Return data |})
  = Loader.Return data /\
  (Loader.regionLoader fetch = Loader.Return data ->
   data <> emptyData ->
   fetch = Loader.Return {| Loader.ok := true; Loader.json := Loader.Return data |}).
Proof.
  split; [reflexivity|].
  intros Hload Hne.
  destruct (Loader.load_failed fetch) eqn:Hf.
  - rewrite (regionLoader_failed fetch Hf) in Hload.
    injection Hload as <-. contradiction.
  - destruct (regionLoader_succeeded fetch Hf) as (d & -> & Hd).
    rewrite Hd in Hload. injection Hload as ->. reflexivity.
Qed.

Lemma regionLoader_passes_body_through_witness :
  let fetch := Loader.Return {| Loader.ok := true;
                                Loader.json := Loader.Return scenarioData |} in
  Loader.regionLoader fetch = Loader.Return scenarioData /\
  scenarioData <> emptyData /\
  fetch = Loader.Return {| Loader.ok := true;
                           Loader.json := Loader.Return scenarioData |}.
Proof.
  intros fetch. split; [reflexivity|]. split; [discriminate|].
  apply (proj2 (regionLoader_passes_body_through fetch scenarioData));
    [reflexivity | discriminate].
Defined.

(** For every page, whatever its query: when the load failed, the page
    rendered from what [regionLoader] returned offers only the placeholder
    in each select, shows the prompt and no label, while the selects still
    hold the values of the query. *)
Theorem failed_load_renders_no_region
        (fetch : Loader.Completion Loader.Response) (data : RegionData)
        (page : Page) :
  Loader.load_failed fetch = true ->
  Loader.regionLoader fetch = Loader.Return data ->
  let view := render data page in
  View.options (View.province view) = [("", "Pilih Provinsi")] /\
  View.options (View.regency view) = [("", "Pilih Kota/Kabupaten")] /\
  View.options (View.district view) = [("", "Pilih Kecamatan")] /\
  View.prompt view = true /\
  (forall c, In c (View.breadcrumb view) ->
             c = crumb_Indonesia \/ View.content c = View.Loading) /\
  (forall b, In b (View.headings view) -> View.body b = View.Loading) /\
  View.value (View.province view) = or_empty (selectedProvId (searchParams page)) /\
  View.value (View.regency view) = or_empty (selectedRegId (searchParams page)) /\
  View.value (View.district view) = or_empty (selectedDistId (searchParams page)).
Proof.
  intros Hf Hload view.
  rewrite (regionLoader_failed fetch Hf) in Hload. injection Hload as <-.
  subst view.
  cbn [render View.province View.regency View.district View.options
       View.prompt View.breadcrumb View.headings View.value].
  assert (Hr : availableRegencies emptyData (searchParams page) = []).
  { unfold availableRegencies.
    destruct (negb (truthy_opt (selectedProvId (searchParams page))));
      reflexivity. }
  assert (Hd : availableDistricts emptyData (searchParams page) = []).
  { unfold availableDistricts.
    destruct (negb (truthy_opt (selectedRegId (searchParams page))));
      reflexivity. }
  rewrite Hr, Hd.
  change (provName emptyData (searchParams page)) with (@None string).
  change (regName emptyData (searchParams page)) with (@None string).
  change (distName emptyData (searchParams page)) with (@None string).
  fold crumb_Indonesia.
  repeat (split; [reflexivity|]).
  split; [| split; [| repeat split]].
  - intros c Hc.
    destruct (TimedLoading.loading (loadingProvince page)),
      (TimedLoading.loading (loadingRegency page)),
      (TimedLoading.loading (loadingDistrict page));
      cbn in Hc;
      repeat (destruct Hc as [<- | Hc]; [auto|]); contradiction.
  - intros b Hb.
    destruct (TimedLoading.loading (loadingProvince page)),
      (TimedLoading.loading (loadingRegency page)),
      (TimedLoading.loading (loadingDistrict page));
      cbn in Hb;
      repeat (destruct Hb as [<- | Hb]; [reflexivity|]); contradiction.
Qed.

Lemma failed_load_renders_no_region_witness :
  let fetch := Loader.Throw "offline" in
  let view := render emptyData page_1_10_100 in
  Loader.load_failed fetch = true /\
  View.options (View.province view) = [("", "Pilih Provinsi")] /\
  View.value (View.province view) = "1" /\
  View.prompt view = true.
Proof.
  intros fetch view. split; [reflexivity|].
  pose proof (failed_load_renders_no_region fetch emptyData page_1_10_100
                eq_refl eq_refl) as H.
  cbv zeta in H.
  destruct H as (Ho & _ & _ & Hp & _ & _ & Hv & _ & _).
  split; [exact Ho|]. split; [exact Hv | exact Hp].
Defined.

(** ** The query of a reached page as an encoding *)

Lemma reachable_canonical (data : RegionData) (page : Page) :
  Reachable data page -> canonical (searchParams page).
Proof.
  induction 1 as [| page a _ IH _].
  - split; [reflexivity | intros k v []].
  - apply canonical_perform. assumption.
Qed.

Lemma defined_pair_decodeId (key : string) (v : option string) :
  (forall s, v = Some s -> exists z, s = String_of_int z) ->
  defined_pair key (decodeId v) = entry key v.
Proof.
  intros H. destruct v as [s|]; [| reflexivity].
  destruct (H s eq_refl) as (z & ->).
  rewrite decodeId_String_of_int. reflexivity.
Qed.

(** On every page reached, with the same data, from the address without
    query by choosing options the selects offer, by the reset button and by
    waiting, the query is exactly the encoding of the selection state it
    decodes to. *)
Theorem reachable_query_is_encoding (data : RegionData) (page : Page) :
  Reachable data page ->
  encode (decode (searchParams page)) = searchParams page.
Proof.
  intros Hreach.
  destruct (reachable_canonical data page Hreach) as [Hq _].
  destruct (reachable_selection_offered data page Hreach) as (Hp & Hr & Hd).
  rewrite encode_defined_pairs. cbn [decode topId midId bottomId].
  rewrite !defined_pair_decodeId; [symmetry; exact Hq | | |].
  - intros s Hs. destruct (Hd s Hs) as (d & _ & E). eauto.
  - intros s Hs. destruct (Hr s Hs) as (r & _ & E). eauto.
  - intros s Hs. destruct (Hp s Hs) as (p & _ & E). eauto.
Qed.

Lemma reachable_query_is_encoding_witness :
  let page := perform (perform (initialPage []) (ChangeProvince "1"))
                      (ChangeRegency "10") in
  Reachable scenarioData page /\
  encode (decode (searchParams page)) = searchParams page.
Proof.
  intros page.
  assert (Hreach : Reachable scenarioData page).
  { apply reach_perform; [apply reach_perform; [apply reach_initial|]|].
    - split; [reflexivity | right; left; reflexivity].
    - split; [reflexivity | right; left; reflexivity]. }
  split; [assumption|].
  apply (reachable_query_is_encoding scenarioData page Hreach).
Defined.

(** A hand-written address need not be the encoding of what it decodes
    to: [?province=01] decodes to province 1, which is encoded as
    [?province=1]. *)
Example hand_written_query_is_not_encoding :
  decode [("province", "01")] = decode [("province", "1")] /\
  encode (decode [("province", "01")]) = [("province", "1")].
Proof. split; reflexivity. Qed.

(** Two province selections 400 ms apart: the flag of the province is idle
    500 ms after the first one. *)
Example rapid_province_selection :
  TimedLoading.loading
    (loadingProvince
       (elapsePage 100
          (handleProvChange "2"
             (elapsePage 400 (handleProvChange "1" (initialPage []))))))
  = false.
Proof. reflexivity. Qed.

(** The first scenario of the specification. *)
Example scenario_1 :
  let p1 := handleProvChange "1" (initialPage []) in
  let p2 := handleRegChange "10" p1 in
  let p3 := handleDistChange "100" p2 in
  availableRegencies scenarioData (searchParams p1) = regencies scenarioData /\
  availableDistricts scenarioData (searchParams p2) = districts scenarioData /\
  selectedDistId (searchParams p2) = None /\
  distName scenarioData (searchParams p3) = Some "C".
Proof. repeat split. Qed.

(** ** [Number] on sample literals *)

Example Number_null : Number None = of_int 0. Proof. reflexivity. Qed.
Example Number_empty : Number (Some "") = of_int 0. Proof. reflexivity. Qed.
Example Number_12 : Number (Some " 12 ") = of_int 12. Proof. reflexivity. Qed.
Example Number_abc : Number (Some "abc") = NaN. Proof. reflexivity. Qed.
Example Number_12px : Number (Some "12px") = NaN. Proof. reflexivity. Qed.
Example Number_hex : Number (Some "0x1F") = of_int 31. Proof. reflexivity. Qed.
Example Number_neg : Number (Some "-7") = Finite (-7 # 1). Proof. reflexivity. Qed.
Example Number_exp : Number (Some "1e3") = of_int 1000. Proof. reflexivity. Qed.
Example Number_frac : Number (Some "1.5") = Finite (15 # 10). Proof. reflexivity. Qed.
Example Number_dot : Number (Some ".") = NaN. Proof. reflexivity. Qed.
Example Number_inf : Number (Some "-Infinity") = Infinity true. Proof. reflexivity. Qed.
Example String_of_int_ex : String_of_int (-120) = "-120". Proof. reflexivity. Qed.
